(** * src/App.js: the session controller of the eWeLink data fetcher

    A shallow embedding of the React component [App]: its state hooks,
    the [ws] ref, the authentication probe, the WebSocket lifecycle
    effect with its four socket handlers, and the logout and fetch-data
    handlers.  The browser (fetch, WebSocket, JSON.parse, React's
    scheduling of effects) is the environment; what it hands to the
    component is described by the small types below. *)

From stdpp Require Import base numbers list strings pretty.

Open Scope string_scope.

(** ** JavaScript values *)

(** The values that reach the component: what [JSON.parse] builds, plus
    [undefined] for a property that is not there.  An object is the
    list of its own properties; a number is modelled on the integers,
    [JNum z] standing for the double nearest to [z]. *)
#[warnings="-register-all"]
Inductive jsval : Type :=
| JUndefined
| JNull
| JBool (b : bool)
| JNum (n : Z)
| JStr (s : string)
| JArr (elems : list jsval)
| JObj (props : list (string * jsval)).

Inductive js_error : Type := SyntaxError | TypeError | NetworkError.

(** Completion of an evaluation: a value, or a thrown exception. *)
Inductive result (A : Type) : Type :=
| Ok (a : A)
| Thrown (e : js_error).
Arguments Ok {A} a.
Arguments Thrown {A} e.

(** ToBoolean, as used by [if (x)] and [x || y]. *)
Definition truthy (v : jsval) : bool :=
  match v with
  | JUndefined | JNull => false
  | JBool b => b
  | JNum n => negb (n =? 0)%Z
  | JStr s => negb (String.eqb s "")
  | JArr _ | JObj _ => true
  end.

(** [a || b] *)
Definition js_or (a b : jsval) : jsval := if truthy a then a else b.

(** Own-property lookup in an object's property list. *)
Fixpoint own_prop (k : string) (props : list (string * jsval)) : option jsval :=
  match props with
  | [] => None
  | (k', v) :: rest => if String.eqb k k' then Some v else own_prop k rest
  end.

Definition has_key (k : string) (props : list (string * jsval)) : bool :=
  match own_prop k props with Some _ => true | None => false end.

(** [v.k] for the property names the component reads ([error],
    [details], [detail], [authenticated]): none of them is defined on a
    prototype, so only an object's own property can answer; reading a
    property of [null] or [undefined] throws. *)
Definition get_prop (v : jsval) (k : string) : result jsval :=
  match v with
  | JUndefined | JNull => Thrown TypeError
  | JObj props => Ok (default JUndefined (own_prop k props))
  | _ => Ok JUndefined
  end.

(** [v?.k] *)
Definition get_prop_opt (v : jsval) (k : string) : result jsval :=
  match v with
  | JUndefined | JNull => Ok JUndefined
  | _ => get_prop v k
  end.

(** The integer value of the double nearest to the natural number [x],
    ties going to the even significand; it is [2 ^ 1024] or more when
    the double is [Infinity]. *)
Definition round53 (x : Z) : Z :=
  let len := (Z.log2 x + 1)%Z in
  if (len <=? 53)%Z then x
  else
    let shift := (len - 53)%Z in
    let q := Z.shiftr x shift in
    let r := Z.land x (Z.ones shift) in
    let half := Z.shiftl 1 (shift - 1) in
    let q' :=
      if (half <? r)%Z || ((r =? half)%Z && Z.odd q) then (q + 1)%Z else q in
    Z.shiftl q' shift.

(** The decimal with the fewest significant digits whose nearest double
    is [m]: for one digit, then two, and so on, the multiples of [scale]
    just below and just above [m] are tried; of two that fit, the one
    closer to [m] is taken, the even one when they are equally close. *)
Fixpoint shortest_decimal (fuel : nat) (scale m : Z) : Z :=
  match fuel with
  | O => m
  | S fuel' =>
      let lo := (m / scale * scale)%Z in
      let hi := (lo + scale)%Z in
      let lo_ok := (round53 lo =? m)%Z in
      let hi_ok := (round53 hi =? m)%Z in
      if lo_ok && hi_ok then
        if (m - lo <? hi - m)%Z then lo
        else if (hi - m <? m - lo)%Z then hi
        else if Z.even (lo / scale) then lo else hi
      else if lo_ok then lo
      else if hi_ok then hi
      else shortest_decimal fuel' (scale / 10) m
  end.

Fixpoint all_zeros (s : string) : bool :=
  match s with
  | "" => true
  | String c rest => if String.eqb (String c "") "0" then all_zeros rest else false
  end.

Fixpoint strip_trailing_zeros (s : string) : string :=
  match s with
  | "" => ""
  | String c rest =>
      if all_zeros rest then String c "" else String c (strip_trailing_zeros rest)
  end.

(** A positive integer of up to 21 digits is written out in full; a
    longer one by its significant digits, a point after the first, and
    [e+] with the exponent. *)
Definition format_decimal (v : Z) : string :=
  let text := pretty v in
  let n := String.length text in
  if (n <=? 21)%nat then text
  else
    match strip_trailing_zeros text with
    | String d "" => String d ("e+" ++ pretty (n - 1)%nat)
    | String d rest => String d ("." ++ rest ++ "e+" ++ pretty (n - 1)%nat)
    | "" => text
    end.

(** Number::toString, in radix 10, of the double nearest to [z]. *)
Definition number_to_string (z : Z) : string :=
  if (z =? 0)%Z then "0"
  else
    let m := round53 (Z.abs z) in
    let n := String.length (pretty m) in
    let body :=
      if (2 ^ 1024 <=? m)%Z then "Infinity"
      else format_decimal (shortest_decimal n (10 ^ (Z.of_nat n - 1)) m) in
    if (z <? 0)%Z then "-" ++ body else body.

(** ToString, as applied by a template literal.  An object answers
    through [Object.prototype.toString] unless an own [toString]
    property (never callable in parsed JSON) hides it, in which case the
    conversion throws; an array joins its elements with commas, [null]
    and [undefined] elements giving the empty string. *)
Fixpoint ToString (v : jsval) : result string :=
  match v with
  | JUndefined => Ok "undefined"
  | JNull => Ok "null"
  | JBool true => Ok "true"
  | JBool false => Ok "false"
  | JNum n => Ok (number_to_string n)
  | JStr s => Ok s
  | JArr elems =>
      let elem (x : jsval) : result string :=
        match x with
        | JUndefined | JNull => Ok ""
        | _ => ToString x
        end in
      (fix join (l : list jsval) : result string :=
         match l with
         | [] => Ok ""
         | [x] => elem x
         | x :: rest =>
             match elem x with
             | Thrown e => Thrown e
             | Ok s1 =>
                 match join rest with
                 | Thrown e => Thrown e
                 | Ok s2 => Ok (s1 ++ "," ++ s2)
                 end
             end
         end) elems
  | JObj props =>
      if has_key "toString" props then Thrown TypeError
      else Ok "[object Object]"
  end.

Definition is_object (v : jsval) : bool :=
  match v with
  | JArr _ | JObj _ => true
  | _ => false
  end.

(** [Object.is] on primitives, which compare by value.  An array or an
    object compares by reference: that case is decided where the
    references are known ([same_dependency] below). *)
Definition same_value (a b : jsval) : bool :=
  match a, b with
  | JUndefined, JUndefined => true
  | JNull, JNull => true
  | JBool x, JBool y => Bool.eqb x y
  | JNum x, JNum y => (x =? y)%Z
  | JStr x, JStr y => String.eqb x y
  | _, _ => false
  end.

(** The text of a channel frame or of a response body reaches the
    component only through [JSON.parse] / [response.json()]; it is
    represented by what that call makes of it. *)
Inductive json_text : Type :=
| NotJson
| Json (v : jsval).

Definition JSON_parse (t : json_text) : result jsval :=
  match t with
  | NotJson => Thrown SyntaxError
  | Json v => Ok v
  end.

(** ** The browser's side *)

(** [WebSocket.readyState] *)
Inductive readyState : Type := CONNECTING | OPEN | CLOSING | CLOSED.

(** How a [fetch] ends: the promise rejects, or a response arrives with
    a status and a body. *)
Inductive fetch_outcome : Type :=
| NetworkFailure
| Response (status : Z) (body : json_text).

Record response : Type := mkResponse { resp_status : Z; resp_body : json_text }.

(** [response.ok]: the status is in the range 200 to 299. *)
Definition response_ok (r : response) : bool :=
  (200 <=? resp_status r)%Z && (resp_status r <=? 299)%Z.

Definition BACKEND_URL : string := "https://aedesign-sonoff-backend.onrender.com".
Definition WEBSOCKET_URL : string := "wss://aedesign-sonoff-backend.onrender.com/ws".

(** ** Component state *)

(** The five state hooks, the [ws] ref with the sockets it has pointed
    to, and the address the window was last sent to.  [ws_current] is
    [None] for [ws.current === null], else the index in [sockets] of the
    WebSocket object the ref holds; [sockets] keeps the ready state of
    every WebSocket constructed so far, in order of construction.
    [auth_ref] numbers the arrays and objects stored in
    [isAuthenticated]: it is the identity of the one held now. *)
Record State : Type := mkState {
  isAuthenticated : jsval;
  auth_ref : nat;
  userData : jsval;
  loading : bool;
  error : jsval;
  statusMessage : string;
  ws_current : option nat;
  sockets : list readyState;
  location_href : option string
}.

(** [useState(false)], [useState(null)], [useState(true)],
    [useState(null)], [useState('')], [useRef(null)]. *)
Definition initial : State :=
  mkState (JBool false) 0 JNull true JNull "" None [] None.

(** Handlers are state transformers that may throw. *)
Definition M (A : Type) : Type := State -> result A * State.

#[global] Instance M_ret : MRet M := fun A a s => (Ok a, s).
#[global] Instance M_bind : MBind M := fun A B f m s =>
  match m s with
  | (Ok a, s') => f a s'
  | (Thrown e, s') => (Thrown e, s')
  end.

Definition lift {A} (r : result A) : M A := fun s => (r, s).

Definition read {A} (field : State -> A) : M A := fun s => (Ok (field s), s).

(** [try { body } catch (err) { handler }] *)
Definition try_catch {A} (body : M A) (handler : js_error -> M A) : M A :=
  fun s =>
    match body s with
    | (Ok a, s') => (Ok a, s')
    | (Thrown e, s') => handler e s'
    end.

(** [try { body } finally { fin }] *)
Definition try_finally {A} (body : M A) (fin : M unit) : M A :=
  fun s =>
    let '(r, s') := body s in
    match fin s' with
    | (Ok _, s'') => (r, s'')
    | (Thrown e, s'') => (Thrown e, s'')
    end.

(** A stored array or object is a reference the state did not hold
    before. *)
Definition setIsAuthenticated (v : jsval) : M unit := fun s =>
  (Ok (), mkState v (if is_object v then S (auth_ref s) else auth_ref s)
            (userData s) (loading s) (error s) (statusMessage s)
            (ws_current s) (sockets s) (location_href s)).

Definition setUserData (v : jsval) : M unit := fun s =>
  (Ok (), mkState (isAuthenticated s) (auth_ref s) v (loading s) (error s) (statusMessage s)
            (ws_current s) (sockets s) (location_href s)).

Definition setLoading (b : bool) : M unit := fun s =>
  (Ok (), mkState (isAuthenticated s) (auth_ref s) (userData s) b (error s) (statusMessage s)
            (ws_current s) (sockets s) (location_href s)).

Definition setError (v : jsval) : M unit := fun s =>
  (Ok (), mkState (isAuthenticated s) (auth_ref s) (userData s) (loading s) v (statusMessage s)
            (ws_current s) (sockets s) (location_href s)).

Definition setStatusMessage (m : string) : M unit := fun s =>
  (Ok (), mkState (isAuthenticated s) (auth_ref s) (userData s) (loading s) (error s) m
            (ws_current s) (sockets s) (location_href s)).

(** [ws.current = h] *)
Definition set_ws_current (h : option nat) : M unit := fun s =>
  (Ok (), mkState (isAuthenticated s) (auth_ref s) (userData s) (loading s) (error s)
            (statusMessage s) h (sockets s) (location_href s)).

Definition set_sockets (l : list readyState) : M unit := fun s =>
  (Ok (), mkState (isAuthenticated s) (auth_ref s) (userData s) (loading s) (error s)
            (statusMessage s) (ws_current s) l (location_href s)).

(** [window.location.href = url] *)
Definition set_location_href (url : string) : M unit := fun s =>
  (Ok (), mkState (isAuthenticated s) (auth_ref s) (userData s) (loading s) (error s)
            (statusMessage s) (ws_current s) (sockets s) (Some url)).

(** [new WebSocket(WEBSOCKET_URL)]: a fresh socket, connecting. *)
Definition new_WebSocket : M nat :=
  l ← read sockets;
  set_sockets (l ++ [CONNECTING]);;
  mret (length l).

(** [sock.readyState] *)
Definition ready_state (sock : nat) : M readyState :=
  l ← read sockets;
  mret (default CLOSED (l !! sock)).

(** [sock.close()]: a socket that is connecting or open starts
    closing; one that is closing or closed is left as it is. *)
Definition ws_close (sock : nat) : M unit :=
  l ← read sockets;
  match l !! sock with
  | Some CONNECTING | Some OPEN => set_sockets (<[sock := CLOSING]> l)
  | _ => mret ()
  end.

(** [await fetch(...)] resumed with the outcome of the request. *)
Definition await_fetch (o : fetch_outcome) : M response :=
  match o with
  | NetworkFailure => lift (Thrown NetworkError)
  | Response status body => mret (mkResponse status body)
  end.

(** [await response.json()] *)
Definition response_json (r : response) : M jsval :=
  lift (JSON_parse (resp_body r)).

(** ** The component *)

(** [checkAuthStatus], from the point where its [fetch] settles. *)
Definition checkAuthStatus (o : fetch_outcome) : M unit :=
  try_finally
    (try_catch
       (response ← await_fetch o;
        if response_ok response then
          data ← response_json response;
          authenticated ← lift (get_prop data "authenticated");
          setIsAuthenticated authenticated
        else
          setError (JStr "Failed to check authentication status."))
       (fun err => setError (JStr "Cannot connect to the backend. Is it running?")))
    (setLoading false).

(** The body of the WebSocket effect.  All sockets are given the same
    four handlers ([onopen], [onmessage], [onerror], [onclose] below),
    so a socket need not record them. *)
Definition effect : M unit :=
  authenticated ← read isAuthenticated;
  if truthy authenticated then
    current ← read ws_current;
    match current with
    | None =>
        sock ← new_WebSocket;
        set_ws_current (Some sock)
    | Some _ => mret ()
    end
  else
    current ← read ws_current;
    match current with
    | Some sock => ws_close sock
    | None => mret ()
    end.

(** The cleanup function the effect returns. *)
Definition cleanup : M unit :=
  current ← read ws_current;
  match current with
  | Some sock =>
      st ← ready_state sock;
      match st with
      | OPEN => ws_close sock
      | _ => mret ()
      end
  | None => mret ()
  end.

Definition onopen : M unit :=
  setStatusMessage "Connected to server. Ready to fetch data.".

Definition onmessage (event_data : json_text) : M unit :=
  data ← lift (JSON_parse event_data);
  data_error ← lift (get_prop data "error");
  (if truthy data_error then
     data_details ← lift (get_prop data "details");
     text ← lift (ToString (js_or data_details data_error));
     setError (JStr ("Error from server: " ++ text));;
     setUserData JNull
   else
     setUserData data;;
     setError JNull);;
  setStatusMessage "Data received!".

Definition onerror : M unit :=
  setError (JStr "A WebSocket error occurred. Connection may be lost.").

Definition onclose : M unit :=
  setStatusMessage "Disconnected from server.";;
  set_ws_current None.

Definition handleLogin : M unit :=
  set_location_href (BACKEND_URL ++ "/login").

Definition handleLogout : M unit :=
  setIsAuthenticated (JBool false);;
  setUserData JNull;;
  set_location_href (BACKEND_URL ++ "/logout").

(** [handleGetData] up to its [await fetch(...)]. *)
Definition handleGetData_request : M unit :=
  setStatusMessage "Requesting data from eWeLink...";;
  setUserData JNull;;
  setError JNull.

(** [handleGetData] from the point where its [fetch] settles. *)
Definition handleGetData_settle (o : fetch_outcome) : M unit :=
  try_catch
    (response ← await_fetch o;
     result ← response_json response;
     if negb (response_ok response) then
       detail ← lift (get_prop result "detail");
       detail_error ← lift (get_prop_opt detail "error");
       setError (js_or (js_or detail_error detail)
                       (JStr "Failed to trigger data fetch."));;
       setStatusMessage ""
     else mret ())
    (fun err =>
       setError (JStr "Failed to send data request to backend.");;
       setStatusMessage "").

Definition handleGetData (o : fetch_outcome) : M unit :=
  handleGetData_request;;
  handleGetData_settle o.

(** ** Events *)

(** What can happen to the mounted component: a request settles, the
    user clicks, or the browser reports on a socket.  The component
    starts its probe once, at mount; a run below may hold the settlement
    of a probe at any place and any number of times, which stands for
    every way [isAuthenticated] can come to change. *)
Inductive Event : Type :=
| ProbeSettled (o : fetch_outcome)
| ClickLogin
| ClickLogout
| ClickGetData
| GetDataSettled (o : fetch_outcome)
| WsOpen (sock : nat)
| WsMessage (sock : nat) (data : json_text)
| WsError (sock : nat)
| WsClose (sock : nat).

(** The browser delivers [open] to a connecting socket, which is open
    from then on; [message] to an open socket; [error] to a socket that
    is not yet closed; [close] to a socket that is not yet closed, which
    is closed from then on.  Anything else is not delivered. *)
Definition dispatch (e : Event) : M unit :=
  match e with
  | ProbeSettled o => checkAuthStatus o
  | ClickLogin => handleLogin
  | ClickLogout => handleLogout
  | ClickGetData => handleGetData_request
  | GetDataSettled o => handleGetData_settle o
  | WsOpen sock =>
      l ← read sockets;
      match l !! sock with
      | Some CONNECTING => set_sockets (<[sock := OPEN]> l);; onopen
      | _ => mret ()
      end
  | WsMessage sock data =>
      l ← read sockets;
      match l !! sock with
      | Some OPEN => onmessage data
      | _ => mret ()
      end
  | WsError sock =>
      l ← read sockets;
      match l !! sock with
      | Some CONNECTING | Some OPEN | Some CLOSING => onerror
      | _ => mret ()
      end
  | WsClose sock =>
      l ← read sockets;
      match l !! sock with
      | Some CONNECTING | Some OPEN | Some CLOSING =>
          set_sockets (<[sock := CLOSED]> l);; onclose
      | _ => mret ()
      end
  end.

(** State left by a handler, whether it returned or threw (an exception
    that escapes a handler is reported by the browser and the page goes
    on). *)
Definition exec (m : M unit) (s : State) : State := snd (m s).

(** [Object.is] between the [isAuthenticated] of the previous render and
    the one now held: by reference for an array or object, by value
    otherwise. *)
Definition same_dependency (prev next : State) : bool :=
  if is_object (isAuthenticated next) then (auth_ref prev =? auth_ref next)%nat
  else same_value (isAuthenticated prev) (isAuthenticated next).

(** After a handler has run React renders again, and the WebSocket
    effect, whose dependency list is [[isAuthenticated]], is run again
    (its previous cleanup first) when that value is not the one of the
    previous render. *)
Definition rerender (prev next : State) : State :=
  if same_dependency prev next then next
  else exec effect (exec cleanup next).

Definition step (s : State) (e : Event) : State :=
  rerender s (exec (dispatch e) s).

Definition run (tr : list Event) (s : State) : State :=
  foldl step s tr.

(** ** Vocabulary of the statements *)

(** The part of the state the view reads. *)
Definition snapshot (s : State) : jsval * jsval * bool * jsval * string :=
  (isAuthenticated s, userData s, loading s, error s, statusMessage s).

(** The fields the view does not read: the reference stamp, the ref and
    the sockets, with [isAuthenticated], on which the effect depends. *)
Definition channel (s : State) : jsval * nat * option nat * list readyState :=
  (isAuthenticated s, auth_ref s, ws_current s, sockets s).

Definition msg_bad_token : json_text :=
  Json (JObj [("error", JStr "E1"); ("details", JStr "bad token")]).

Definition msg_empty_error : json_text :=
  Json (JObj [("error", JStr ""); ("details", JStr "bad token")]).

(** A state with an open channel: the probe answered
    [{"authenticated": true}] and the socket connected. *)
Definition probe_true : Event :=
  ProbeSettled (Response 200 (Json (JObj [("authenticated", JBool true)]))).

Definition connected : State := run [probe_true; WsOpen 0] initial.

Definition body_rate_limited : json_text :=
  Json (JObj [("detail", JObj [("error", JStr "rate limited")])]).

Definition body_forbidden : json_text :=
  Json (JObj [("detail", JStr "forbidden")]).

Definition body_empty_detail : json_text :=
  Json (JObj [("detail", JStr "")]).

(** The message C5 describes for a rejected request, in its words: the
    body's nested [detail.error] field if present, else its top-level
    [detail] field if present, else the generic fallback string. *)
Definition described_rejection (body : json_text) : jsval :=
  match body with
  | Json (JObj props) =>
      match own_prop "detail" props with
      | Some (JObj detail_props) =>
          match own_prop "error" detail_props with
          | Some nested => nested
          | None => JObj detail_props
          end
      | Some detail => detail
      | None => JStr "Failed to trigger data fetch."
      end
  | _ => JStr "Failed to trigger data fetch."
  end.

Definition msg_temp : json_text := Json (JObj [("temp", JNum 21)]).

(** A state showing data: the channel is open and [{"temp": 21}] has
    arrived. *)
Definition showing_data : State := step connected (WsMessage 0 msg_temp).

Definition is_live (st : readyState) : bool :=
  match st with
  | CLOSED => false
  | _ => true
  end.

(** How many of the sockets constructed so far are not closed. *)
Fixpoint live (socks : list readyState) : nat :=
  match socks with
  | [] => 0
  | st :: rest => (if is_live st then 1 else 0) + live rest
  end.

Definition live_channels (s : State) : nat := live (sockets s).

(** Channels constructed so far. *)
Definition channels_created (s : State) : nat := length (sockets s).

(** Every socket the ref does not hold is closed. *)
Definition owns (cur : option nat) (socks : list readyState) : Prop :=
  forall i st, socks !! i = Some st -> cur <> Some i -> st = CLOSED.

Definition handle_owns_live (s : State) : Prop :=
  owns (ws_current s) (sockets s).

(** An event flips [authenticated] from false to true. *)
Definition rises (s : State) (e : Event) : bool :=
  negb (truthy (isAuthenticated s)) && truthy (isAuthenticated (step s e)).

Definition no_handle (s : State) : bool :=
  match ws_current s with
  | None => true
  | Some _ => false
  end.

(** The false-to-true transitions of a run that found no handle. *)
Fixpoint rises_without_handle (tr : list Event) (s : State) : nat :=
  match tr with
  | [] => 0
  | e :: rest =>
      (if rises s e && no_handle s then 1 else 0)
      + rises_without_handle rest (step s e)
  end.

(** [authenticated] is a boolean at every state of the run. *)
Fixpoint boolean_run (tr : list Event) (s : State) : Prop :=
  (exists b, isAuthenticated s = JBool b)
  /\ match tr with
     | [] => True
     | e :: rest => boolean_run rest (step s e)
     end.

(** [authenticated] is [true] at every state of the run. *)
Fixpoint stays_true (tr : list Event) (s : State) : Prop :=
  isAuthenticated s = JBool true
  /\ match tr with
     | [] => True
     | e :: rest => stays_true rest (step s e)
     end.

(** Login, connect, logout, the close arrives, login again. *)
Definition toggling : list Event :=
  [probe_true; WsOpen 0; ClickLogout; WsClose 0; probe_true].

(** ** The view *)

(** What React makes of a value placed as a child of an element: text
    for a number or a string that is not empty, nothing for the empty
    string, [null], [undefined] and the booleans, the children in turn
    for an array; an object is refused
    ("Objects are not valid as a React child") and the render throws,
    which is [None] here. *)
Fixpoint react_child (v : jsval) : option (list string) :=
  match v with
  | JUndefined | JNull | JBool _ => Some []
  | JNum n => Some [number_to_string n]
  | JStr s => if String.eqb s "" then Some [] else Some [s]
  | JArr elems =>
      (fix children (l : list jsval) : option (list string) :=
         match l with
         | [] => Some []
         | x :: rest =>
             match react_child x, children rest with
             | Some a, Some b => Some (a ++ b)%list
             | _, _ => None
             end
         end) elems
  | JObj _ => None
  end.

(** [{error && <tag>{error}</tag>}]: the element with [error] as its
    child when [error] is truthy, else the falsy value itself. *)
Inductive slot : Type :=
| Bare (v : jsval)
| Boxed (children : list string).

Definition error_slot (err : jsval) : option slot :=
  if truthy err then Boxed <$> react_child err else Some (Bare err).

(** What [renderContent] returns, without its fixed texts and styling:
    the checking paragraph; the control panel with the [disabled]
    attribute of the fetch button, the status line, the error slot and
    the value whose JSON text the [pre] shows ([None] for the
    click-the-button placeholder); or the login prompt with its error
    slot. *)
Inductive View : Type :=
| CheckingAuthentication
| ControlPanel (disabled : bool) (status : string) (error_box : slot)
    (data_box : option jsval)
| LoginPrompt (error_line : slot).

(** [!ws.current || ws.current.readyState !== WebSocket.OPEN] *)
Definition fetch_disabled (s : State) : bool :=
  match ws_current s with
  | None => true
  | Some sock =>
      match default CLOSED (sockets s !! sock) with
      | OPEN => false
      | _ => true
      end
  end.

(** [renderContent], evaluated on the state a render sees; [None] when
    the render throws. *)
Definition renderContent (s : State) : option View :=
  if loading s then Some CheckingAuthentication
  else if truthy (isAuthenticated s) then
    box ← error_slot (error s);
    Some (ControlPanel (fetch_disabled s) (statusMessage s) box
            (if truthy (userData s) then Some (userData s) else None))
  else
    LoginPrompt <$> error_slot (error s).

(** ** Vocabulary of the invariants *)

(** The ref, when it holds a socket, holds the one constructed last, and
    that socket has not closed. *)
Definition held_ok (cur : option nat) (socks : list readyState) : Prop :=
  forall h, cur = Some h ->
    S h = length socks /\ exists st, socks !! h = Some st /\ st <> CLOSED.

(** Without authentication the socket the ref holds is closing. *)
Definition closing_if_unauthenticated (s : State) : Prop :=
  truthy (isAuthenticated s) = false ->
  forall h, ws_current s = Some h -> sockets s !! h = Some CLOSING.

Definition channel_ok (s : State) : Prop :=
  held_ok (ws_current s) (sockets s) /\ closing_if_unauthenticated s.

(** [error] is [null] or truthy: what the error slot tests is whether
    an error is there. *)
Definition error_ok (s : State) : Prop :=
  error s = JNull \/ truthy (error s) = true.

(** The handlers that call [setIsAuthenticated]. *)
Definition sets_authenticated (e : Event) : bool :=
  match e with
  | ProbeSettled _ | ClickLogout => true
  | _ => false
  end.

(** The handlers that call [setUserData]. *)
Definition sets_data (e : Event) : bool :=
  match e with
  | ClickLogout | ClickGetData | WsMessage _ _ => true
  | _ => false
  end.

(** A trigger request that the backend accepted: a success status with
    a body that is JSON. *)
Definition accepted (o : fetch_outcome) : bool :=
  match o with
  | Response status (Json v) => response_ok (mkResponse status (Json v))
  | _ => false
  end.

(** ** Basic facts about values and rendering *)

(** Unfolds a handler down to the record it builds. *)
Ltac unfold_handler :=
  unfold exec, dispatch, checkAuthStatus, effect, cleanup, onopen, onmessage,
    onerror, onclose, handleLogin, handleLogout, handleGetData,
    handleGetData_request, handleGetData_settle, new_WebSocket, ready_state,
    ws_close, await_fetch, response_json, try_catch, try_finally,
    setIsAuthenticated, setUserData, setLoading, setError, setStatusMessage,
    set_ws_current, set_sockets, set_location_href, read, lift,
    mbind, M_bind, mret, M_ret in *.

Ltac snapshot_fields H :=
  unfold snapshot in H; injection H as ?Hauth ?Hdata ?Hload ?Herr ?Hmsg.

Lemma same_value_eq (a b : jsval) : same_value a b = true -> a = b.
Proof.
  destruct a, b; simpl; try discriminate; intros H; try reflexivity.
  - apply Bool.eqb_prop in H. by subst.
  - apply Z.eqb_eq in H. by subst.
  - apply String.eqb_eq in H. by subst.
Qed.

Lemma same_value_refl (v : jsval) : is_object v = false -> same_value v v = true.
Proof.
  destruct v; simpl; try discriminate; intros _; try reflexivity.
  - apply Bool.eqb_reflx.
  - apply Z.eqb_refl.
  - apply String.eqb_refl.
Qed.

(** Number::toString on integers: written out up to 21 digits, by the
    shortest digits that give the double back, in exponent form from
    [1e21] on. *)
Lemma number_to_string_examples :
  number_to_string 21 = "21"
  /\ number_to_string (-7) = "-7"
  /\ number_to_string (2 ^ 53 + 1) = "9007199254740992"
  /\ number_to_string (2 ^ 60) = "1152921504606847000"
  /\ number_to_string (10 ^ 21) = "1e+21"
  /\ number_to_string (2 ^ 70) = "1.1805916207174113e+21"
  /\ number_to_string (10 ^ 23) = "1e+23".
Proof. by vm_compute. Qed.

(** A handler that leaves [isAuthenticated] alone does not bring the
    effect to run. *)
Lemma rerender_unchanged (prev next : State) :
  isAuthenticated next = isAuthenticated prev ->
  auth_ref next = auth_ref prev ->
  rerender prev next = next.
Proof.
  intros Hv Hr. unfold rerender, same_dependency. rewrite Hv, Hr.
  destruct (is_object (isAuthenticated prev)) eqn:Hobj.
  - by rewrite Nat.eqb_refl.
  - by rewrite same_value_refl.
Qed.

Lemma effect_snapshot (s : State) : snapshot (exec effect s) = snapshot s.
Proof.
  destruct s as [a r u l e m [h|] socks loc]; unfold_handler; cbn;
    destruct (truthy a); cbn; try reflexivity.
  destruct (socks !! h) as [[]|]; reflexivity.
Qed.

Lemma cleanup_snapshot (s : State) : snapshot (exec cleanup s) = snapshot s.
Proof.
  destruct s as [a r u l e m [h|] socks loc]; unfold_handler; cbn;
    try reflexivity.
  destruct (socks !! h) as [[]|] eqn:E; cbn; rewrite ?E; reflexivity.
Qed.

(** Rendering touches the sockets and the ref only. *)
Lemma rerender_snapshot (prev next : State) :
  snapshot (rerender prev next) = snapshot next.
Proof.
  unfold rerender. destruct (same_dependency prev next); [reflexivity|].
  by rewrite effect_snapshot, cleanup_snapshot.
Qed.

Lemma step_snapshot (s : State) (e : Event) :
  snapshot (step s e) = snapshot (exec (dispatch e) s).
Proof. apply rerender_snapshot. Qed.

(** At mount the effect runs on the initial state and does nothing. *)
Lemma effect_initial : exec effect initial = initial.
Proof. reflexivity. Qed.

(** ** Inbound messages *)

Lemma onmessage_channel (data : json_text) (s : State) :
  channel (exec (onmessage data) s) = channel s.
Proof.
  unfold_handler; cbn.
  destruct data as [|v]; cbn; try reflexivity.
  destruct (get_prop v "error") as [e|]; cbn; try reflexivity.
  destruct (truthy e); cbn; try reflexivity.
  destruct (get_prop v "details") as [d|]; cbn; try reflexivity.
  destruct (ToString (js_or d e)); reflexivity.
Qed.

Lemma rerender_same_channel (prev next : State) :
  channel next = channel prev -> rerender prev next = next.
Proof.
  unfold channel. intros H. injection H as Ha Hr _ _.
  by apply rerender_unchanged.
Qed.

(** A message delivered on an open socket is handled by [onmessage], and
    nothing else happens in that step. *)
Lemma step_message (s : State) (sock : nat) (data : json_text) :
  sockets s !! sock = Some OPEN ->
  step s (WsMessage sock data) = exec (onmessage data) s.
Proof.
  intros Hopen. unfold step.
  assert (dispatch (WsMessage sock data) s = onmessage data s) as Hd.
  { unfold dispatch, read, mbind, M_bind. by rewrite Hopen. }
  unfold exec at 1. rewrite Hd. fold (exec (onmessage data) s).
  apply rerender_same_channel, onmessage_channel.
Qed.

(** What [onmessage] does with a JSON object, by the truthiness of its
    [error] property. *)
Lemma onmessage_object (props : list (string * jsval)) (s : State) :
  let data_error := default JUndefined (own_prop "error" props) in
  let data_details := default JUndefined (own_prop "details" props) in
  onmessage (Json (JObj props)) s =
    if truthy data_error then
      match ToString (js_or data_details data_error) with
      | Ok text =>
          (Ok (), mkState (isAuthenticated s) (auth_ref s) JNull (loading s)
                    (JStr ("Error from server: " ++ text)) "Data received!"
                    (ws_current s) (sockets s) (location_href s))
      | Thrown e => (Thrown e, s)
      end
    else
      (Ok (), mkState (isAuthenticated s) (auth_ref s) (JObj props) (loading s)
                JNull "Data received!"
                (ws_current s) (sockets s) (location_href s)).
Proof.
  cbn zeta. unfold_handler. cbn.
  destruct (truthy (default JUndefined (own_prop "error" props))); cbn;
    [|reflexivity].
  destruct (ToString _); reflexivity.
Qed.

(** C2, as stated, fails: the message [{"error": "", "details": "bad
    token"}] is a JSON object with an [error] key, yet it is handled as
    a data message: [data] holds the payload and [error] is cleared.
    And where the error branch is taken, as for [{"error": "E1",
    "details": "bad token"}], [error] is not the details themselves. *)
Lemma empty_error_key_is_data_message :
  (exists props, msg_empty_error = Json (JObj props) /\ has_key "error" props = true)
  /\ sockets connected !! 0 = Some OPEN
  /\ userData (step connected (WsMessage 0 msg_empty_error)) <> JNull
  /\ error (step connected (WsMessage 0 msg_empty_error)) = JNull
  /\ error (step connected (WsMessage 0 msg_bad_token)) <> JStr "bad token".
Proof.
  split; [eexists; split; reflexivity|].
  split; [reflexivity|]. split; [discriminate|]. split; [reflexivity|discriminate].
Qed.

(** C2, amended: a message that parses to a JSON object whose [error]
    property is truthy, and for which the string conversion of the value
    shown ([details] if truthy, else [error]) does not throw, sets
    [error] to "Error from server: " followed by that string form and
    clears [data]; an object whose [error] property is absent or falsy
    becomes [data], and [error] is cleared; in both cases
    [statusMessage] becomes "Data received!". *)
Theorem onmessage_discriminates
    (s : State) (sock : nat) (props : list (string * jsval)) :
  sockets s !! sock = Some OPEN ->
  let data_error := default JUndefined (own_prop "error" props) in
  let data_details := default JUndefined (own_prop "details" props) in
  let s' := step s (WsMessage sock (Json (JObj props))) in
  (forall text,
      truthy data_error = true ->
      ToString (js_or data_details data_error) = Ok text ->
      error s' = JStr ("Error from server: " ++ text)
      /\ userData s' = JNull
      /\ statusMessage s' = "Data received!")
  /\ (truthy data_error = false ->
      userData s' = JObj props
      /\ error s' = JNull
      /\ statusMessage s' = "Data received!").
Proof.
  intros Hopen data_error data_details s'. subst s'.
  rewrite (step_message _ _ _ Hopen). unfold exec.
  rewrite onmessage_object. fold data_error data_details. split.
  - intros text He Ht. rewrite He, Ht. cbn. auto.
  - intros He. rewrite He. cbn. auto.
Qed.

Lemma onmessage_discriminates_witness :
  error (step connected (WsMessage 0 msg_bad_token))
    = JStr "Error from server: bad token"
  /\ userData (step connected (WsMessage 0 msg_bad_token)) = JNull
  /\ statusMessage (step connected (WsMessage 0 msg_bad_token)) = "Data received!".
Proof.
  refine (proj1 (onmessage_discriminates connected 0
                   [("error", JStr "E1"); ("details", JStr "bad token")] _)
                "bad token" _ _); reflexivity.
Defined.

(** C3, as stated, fails: after [{"error":"E1","details":"bad token"}]
    the [error] field is not the bare string "bad token". *)
Lemma bad_token_error_is_prefixed :
  error (step connected (WsMessage 0 msg_bad_token)) <> JStr "bad token".
Proof. discriminate. Qed.

(** C3, amended: after the inbound message
    [{"error":"E1","details":"bad token"}] the [error] field is exactly
    "Error from server: bad token" and [data] is [null]. *)
Theorem bad_token_snapshot (s : State) (sock : nat) :
  sockets s !! sock = Some OPEN ->
  error (step s (WsMessage sock msg_bad_token))
    = JStr "Error from server: bad token"
  /\ userData (step s (WsMessage sock msg_bad_token)) = JNull.
Proof.
  intros Hopen. rewrite (step_message _ _ _ Hopen). split; reflexivity.
Qed.

Lemma bad_token_snapshot_witness :
  error (step connected (WsMessage 0 msg_bad_token))
    = JStr "Error from server: bad token"
  /\ userData (step connected (WsMessage 0 msg_bad_token)) = JNull.
Proof. apply (bad_token_snapshot connected 0). reflexivity. Defined.

(** C9: a frame whose text is not JSON makes [onmessage] throw a
    SyntaxError, and the frame [null] makes it throw a TypeError; the
    state is left as it was, so neither frame is taken as a data
    message. *)
Theorem onmessage_throws_on_malformed_frame (s : State) :
  onmessage NotJson s = (Thrown SyntaxError, s)
  /\ onmessage (Json JNull) s = (Thrown TypeError, s)
  /\ step connected (WsMessage 0 NotJson) = connected
  /\ step connected (WsMessage 0 (Json JNull)) = connected.
Proof. repeat split. Qed.

(** ** The trigger request *)

Lemma handleGetData_settle_channel (o : fetch_outcome) (s : State) :
  channel (exec (handleGetData_settle o) s) = channel s.
Proof.
  unfold_handler; cbn.
  destruct o as [|status [|v]]; cbn; try reflexivity.
  destruct (negb _); cbn; try reflexivity.
  destruct (get_prop v "detail") as [d|]; cbn; try reflexivity.
  destruct (get_prop_opt d "error"); reflexivity.
Qed.

Lemma step_GetDataSettled (s : State) (o : fetch_outcome) :
  step s (GetDataSettled o) = exec (handleGetData_settle o) s.
Proof. apply rerender_same_channel, handleGetData_settle_channel. Qed.

(** C5, as stated, fails on two non-success responses: with the body
    [{"detail": ""}] the top-level [detail] field is present, yet the
    fallback string is shown; with a body that is not JSON the
    unreachable-backend string is shown, not the fallback. *)
Lemma rejection_message_differs :
  response_ok (mkResponse 403 body_empty_detail) = false
  /\ error (step initial (GetDataSettled (Response 403 body_empty_detail)))
       <> described_rejection body_empty_detail
  /\ error (step initial (GetDataSettled (Response 403 NotJson)))
       <> described_rejection NotJson.
Proof. split; [reflexivity|]. split; discriminate. Qed.

(** C5, amended: for every non-success response whose body parses to a
    JSON value other than [null], the error shown is the body's nested
    [detail.error] if that is truthy, else its [detail] if that is
    truthy, else "Failed to trigger data fetch."; for a transport
    failure it is "Failed to send data request to backend.".  HTTP 403
    with [{"detail":{"error":"rate limited"}}] gives "rate limited" and
    with [{"detail":"forbidden"}] gives "forbidden". *)
Theorem trigger_failure_message (s : State) (status : Z) :
  (forall result detail detail_error,
      response_ok (mkResponse status (Json result)) = false ->
      get_prop result "detail" = Ok detail ->
      get_prop_opt detail "error" = Ok detail_error ->
      error (step s (GetDataSettled (Response status (Json result))))
        = js_or (js_or detail_error detail) (JStr "Failed to trigger data fetch."))
  /\ error (step s (GetDataSettled NetworkFailure))
       = JStr "Failed to send data request to backend."
  /\ error (step s (GetDataSettled (Response 403 body_rate_limited)))
       = JStr "rate limited"
  /\ error (step s (GetDataSettled (Response 403 body_forbidden)))
       = JStr "forbidden".
Proof.
  rewrite !step_GetDataSettled. split; [|repeat split].
  intros result detail detail_error Hok Hd He.
  rewrite step_GetDataSettled. unfold_handler. cbn.
  rewrite Hok. cbn. rewrite Hd, He. reflexivity.
Qed.

Lemma trigger_failure_message_witness :
  error (step initial
           (GetDataSettled (Response 500 (Json (JObj [("detail", JNum 7)])))))
    = JNum 7.
Proof.
  refine (proj1 (trigger_failure_message initial 500)
                (JObj [("detail", JNum 7)]) (JNum 7) JUndefined _ _ _);
    reflexivity.
Defined.

(** C10: the body is parsed before the status is looked at, so a
    response of any status, success included, whose body is not JSON
    ends as a transport failure does: the error is "Failed to send data
    request to backend." and the status message is cleared. *)
Theorem non_json_body_takes_failure_path (s : State) (status : Z) :
  step s (GetDataSettled (Response status NotJson))
    = step s (GetDataSettled NetworkFailure)
  /\ exec (handleGetData (Response status NotJson)) s
    = exec (handleGetData NetworkFailure) s
  /\ error (step s (GetDataSettled (Response status NotJson)))
    = JStr "Failed to send data request to backend."
  /\ statusMessage (step s (GetDataSettled (Response status NotJson))) = "".
Proof. rewrite !step_GetDataSettled. repeat split. Qed.

(** ** The authentication probe *)

Lemma step_fields (s : State) (e : Event) :
  isAuthenticated (step s e) = isAuthenticated (exec (dispatch e) s)
  /\ userData (step s e) = userData (exec (dispatch e) s)
  /\ loading (step s e) = loading (exec (dispatch e) s)
  /\ error (step s e) = error (exec (dispatch e) s)
  /\ statusMessage (step s e) = statusMessage (exec (dispatch e) s).
Proof.
  pose proof (step_snapshot s e) as H. snapshot_fields H. auto.
Qed.

(** C6: however the startup probe ends, [loading] is false afterwards.
    A success response whose body yields an [authenticated] property
    sets [isAuthenticated] to it and leaves [error] alone; a non-success
    status, a transport failure, or a body from which the property
    cannot be read leaves [isAuthenticated] false and sets an error
    string. *)
Theorem probe_settles (o : fetch_outcome) (s : State) :
  isAuthenticated s = JBool false ->
  let s' := step s (ProbeSettled o) in
  loading s' = false
  /\ match o with
     | NetworkFailure =>
         isAuthenticated s' = JBool false
         /\ error s' = JStr "Cannot connect to the backend. Is it running?"
     | Response status body =>
         if response_ok (mkResponse status body) then
           match body with
           | Json data =>
               match get_prop data "authenticated" with
               | Ok authenticated =>
                   isAuthenticated s' = authenticated /\ error s' = error s
               | Thrown _ =>
                   isAuthenticated s' = JBool false
                   /\ error s' = JStr "Cannot connect to the backend. Is it running?"
               end
           | NotJson =>
               isAuthenticated s' = JBool false
               /\ error s' = JStr "Cannot connect to the backend. Is it running?"
           end
         else
           isAuthenticated s' = JBool false
           /\ error s' = JStr "Failed to check authentication status."
     end.
Proof.
  intros Hfalse s'. subst s'.
  destruct (step_fields s (ProbeSettled o)) as (-> & _ & -> & -> & _).
  unfold_handler. cbn.
  destruct o as [|status [|data]]; cbn; auto;
    destruct (response_ok _); cbn; auto.
  destruct (get_prop data "authenticated"); cbn; auto.
Qed.

Lemma probe_settles_witness :
  loading (step initial probe_true) = false
  /\ isAuthenticated (step initial probe_true) = JBool true
  /\ error (step initial probe_true) = JNull.
Proof. exact (probe_settles _ initial eq_refl). Defined.

(** ** Closing *)

(** A [close] event delivered to a socket runs [onclose] and nothing
    else. *)
Lemma step_close (s : State) (sock : nat) (st : readyState) :
  sockets s !! sock = Some st ->
  st <> CLOSED ->
  step s (WsClose sock) =
    mkState (isAuthenticated s) (auth_ref s) (userData s) (loading s) (error s)
      "Disconnected from server." None (<[sock := CLOSED]> (sockets s))
      (location_href s).
Proof.
  intros Hst Hlive. unfold step.
  assert (exec (dispatch (WsClose sock)) s =
    mkState (isAuthenticated s) (auth_ref s) (userData s) (loading s) (error s)
      "Disconnected from server." None (<[sock := CLOSED]> (sockets s))
      (location_href s)) as ->.
  { unfold_handler. cbn. rewrite Hst. destruct st; try reflexivity. congruence. }
  by apply rerender_unchanged.
Qed.

(** C7: a close event on a channel that is not yet closed, whether the
    server closed it (connecting or open) or the component asked for it
    (closing), sets the handle to [None] and the status message to
    "Disconnected from server.", and keeps [data] and [error]. *)
Theorem close_event_clears_handle (s : State) (sock : nat) (st : readyState) :
  sockets s !! sock = Some st ->
  st <> CLOSED ->
  let s' := step s (WsClose sock) in
  ws_current s' = None
  /\ statusMessage s' = "Disconnected from server."
  /\ userData s' = userData s
  /\ error s' = error s
  /\ sockets s' !! sock = Some CLOSED.
Proof.
  intros Hst Hlive s'. subst s'. rewrite (step_close s sock st Hst Hlive). cbn.
  repeat split. apply list_lookup_insert_eq. by eapply lookup_lt_Some.
Qed.

Lemma close_event_clears_handle_witness :
  ws_current (step showing_data (WsClose 0)) = None
  /\ statusMessage (step showing_data (WsClose 0)) = "Disconnected from server."
  /\ userData (step showing_data (WsClose 0)) = JObj [("temp", JNum 21)]
  /\ error (step showing_data (WsClose 0)) = JNull
  /\ sockets (step showing_data (WsClose 0)) !! 0 = Some CLOSED.
Proof.
  refine (close_event_clears_handle showing_data 0 OPEN _ _);
    [reflexivity | discriminate].
Defined.

(** ** Logout *)

(** What the effect and its cleanup do once [isAuthenticated] has turned
    falsy: the socket the ref holds is asked to close, and the ref keeps
    holding it. *)
Lemma effect_tears_down (n : State) (sock : nat) (st : readyState) :
  truthy (isAuthenticated n) = false ->
  ws_current n = Some sock ->
  sockets n !! sock = Some st ->
  st <> CLOSED ->
  ws_current (exec effect (exec cleanup n)) = Some sock
  /\ sockets (exec effect (exec cleanup n)) = <[sock := CLOSING]> (sockets n).
Proof.
  destruct n as [a r u l e m cur socks loc]. cbn. intros Ha -> Hst Hlive.
  pose proof (lookup_lt_Some _ _ _ Hst) as Hlt.
  unfold_handler. cbn. rewrite Hst.
  destruct st;
    repeat (progress (cbn; rewrite ?Ha, ?Hst, ?list_lookup_insert_eq by done));
    try done.
  split; [done|]. symmetry. by apply list_insert_id.
Qed.

Lemma dispatch_logout (s : State) :
  exec (dispatch ClickLogout) s =
    mkState (JBool false) (auth_ref s) JNull (loading s) (error s)
      (statusMessage s) (ws_current s) (sockets s)
      (Some (BACKEND_URL ++ "/logout")).
Proof. reflexivity. Qed.

Lemma truthy_not_same_as_false (v : jsval) :
  truthy v = true -> same_value v (JBool false) = false.
Proof. destruct v as [| |[]| | | |]; simpl; congruence. Qed.

(** C4, as stated, fails: with [{"temp": 21}] on display, logout leaves
    [data] at [null], not at the value it held. *)
Lemma logout_drops_data :
  userData showing_data = JObj [("temp", JNum 21)]
  /\ userData (step showing_data ClickLogout) <> userData showing_data.
Proof. split; [reflexivity|discriminate]. Qed.

(** C4, amended: logout sets [authenticated] to false, which makes the
    effect ask the channel the ref holds to close; it sets [data] to
    [null] and leaves [error] as it was. *)
Theorem logout_clears_data_keeps_error (s : State) :
  let s' := step s ClickLogout in
  isAuthenticated s' = JBool false
  /\ userData s' = JNull
  /\ error s' = error s
  /\ (forall sock st,
        truthy (isAuthenticated s) = true ->
        ws_current s = Some sock ->
        sockets s !! sock = Some st ->
        st <> CLOSED ->
        ws_current s' = Some sock /\ sockets s' !! sock = Some CLOSING).
Proof.
  intros s'. subst s'.
  destruct (step_fields s ClickLogout) as (-> & -> & _ & -> & _).
  rewrite dispatch_logout. cbn. split; [done|]. split; [done|]. split; [done|].
  intros sock st Ha Hcur Hst Hlive.
  unfold step, rerender, same_dependency. rewrite dispatch_logout. cbn.
  rewrite (truthy_not_same_as_false _ Ha).
  destruct (effect_tears_down
    (mkState (JBool false) (auth_ref s) JNull (loading s) (error s)
       (statusMessage s) (ws_current s) (sockets s)
       (Some (BACKEND_URL ++ "/logout"))) sock st) as [Hc Hs]; try done.
  split; [done|]. rewrite Hs. cbn.
  apply list_lookup_insert_eq. by eapply lookup_lt_Some.
Qed.

Lemma logout_clears_data_keeps_error_witness :
  ws_current (step showing_data ClickLogout) = Some 0
  /\ sockets (step showing_data ClickLogout) !! 0 = Some CLOSING.
Proof.
  refine (proj2 (proj2 (proj2 (logout_clears_data_keeps_error showing_data)))
                0 OPEN _ _ _ _); [reflexivity..|discriminate].
Defined.

(** ** The channel across a run *)

Lemma owns_none_live (socks : list readyState) :
  owns None socks -> live socks = 0.
Proof.
  induction socks as [|st rest IH]; intros Hown; [reflexivity|].
  cbn. rewrite (Hown 0 st) by done. cbn. apply IH.
  intros i st' Hi _. by apply (Hown (S i) st').
Qed.

Lemma owns_live_le_1 (cur : option nat) (socks : list readyState) :
  owns cur socks -> live socks <= 1.
Proof.
  revert cur. induction socks as [|st rest IH]; intros cur Hown; cbn; [lia|].
  destruct cur as [[|h]|].
  - rewrite (owns_none_live rest); [destruct (is_live st); lia|].
    intros i st' Hi _. by apply (Hown (S i) st').
  - rewrite (Hown 0 st) by done. cbn. apply (IH (Some h)).
    intros i st' Hi Hne. apply (Hown (S i) st'); [done|congruence].
  - rewrite (Hown 0 st) by done. cbn. apply (IH None).
    intros i st' Hi _. by apply (Hown (S i) st').
Qed.

Lemma owns_insert_held (h : nat) (st : readyState) (socks : list readyState) :
  owns (Some h) socks -> owns (Some h) (<[h := st]> socks).
Proof.
  intros Hown i st' Hi Hne. apply (Hown i st'); [|done].
  rewrite list_lookup_insert_ne in Hi; [done|congruence].
Qed.

Lemma owns_fresh (socks : list readyState) :
  owns None socks -> owns (Some (length socks)) (socks ++ [CONNECTING]).
Proof.
  intros Hown i st Hi Hne.
  destruct (decide (i < length socks)) as [Hlt|Hge].
  - rewrite lookup_app_l in Hi by done. by apply (Hown i st).
  - assert (i <> length socks) by congruence.
    rewrite lookup_ge_None_2 in Hi; [done|]. rewrite length_app. cbn. lia.
Qed.

Lemma owns_open (cur : option nat) (i : nat) (socks : list readyState) :
  socks !! i = Some CONNECTING ->
  owns cur socks -> owns cur (<[i := OPEN]> socks).
Proof.
  intros Hi Hown j st Hj Hne. destruct (decide (i = j)) as [->|Hij].
  - by specialize (Hown j CONNECTING Hi Hne).
  - rewrite list_lookup_insert_ne in Hj by done. by apply (Hown j st).
Qed.

Lemma owns_closed (cur : option nat) (i : nat) (st : readyState)
    (socks : list readyState) :
  socks !! i = Some st -> st <> CLOSED ->
  owns cur socks -> owns None (<[i := CLOSED]> socks).
Proof.
  intros Hi Hlive Hown j st' Hj _. destruct (decide (i = j)) as [->|Hij].
  - rewrite list_lookup_insert_eq in Hj by (by eapply lookup_lt_Some). congruence.
  - rewrite list_lookup_insert_ne in Hj by done.
    apply (Hown j st'); [done|]. intros ->.
    apply Hlive, (Hown i st); [done|congruence].
Qed.

(** The effect constructs a socket exactly when [isAuthenticated] is
    truthy and the ref is empty; otherwise it constructs none and leaves
    the ref as it is. *)
Lemma effect_channel (n : State) :
  (handle_owns_live n -> handle_owns_live (exec effect n))
  /\ channels_created (exec effect n)
     = channels_created n
       + (if truthy (isAuthenticated n) && no_handle n then 1 else 0)
  /\ ws_current (exec effect n)
     = (if truthy (isAuthenticated n) && no_handle n
        then Some (length (sockets n)) else ws_current n)
  /\ (truthy (isAuthenticated n) && no_handle n = true ->
      sockets (exec effect n) = (sockets n ++ [CONNECTING])%list).
Proof.
  destruct n as [a r u l e m cur socks loc].
  unfold handle_owns_live, channels_created, no_handle. unfold_handler. cbn.
  destruct (truthy a), cur as [h|]; cbn.
  - split_and!; [done|lia|done|done].
  - split_and!; [apply owns_fresh| |done|done]. rewrite length_app. cbn. lia.
  - destruct (socks !! h) as [[]|] eqn:Hh; cbn;
      (split_and!; [try done; apply owns_insert_held| |done|done]);
      rewrite ?length_insert; lia.
  - split_and!; [done|lia|done|done].
Qed.

(** The cleanup constructs nothing and leaves the ref as it is. *)
Lemma cleanup_channel (n : State) :
  (handle_owns_live n -> handle_owns_live (exec cleanup n))
  /\ channels_created (exec cleanup n) = channels_created n
  /\ ws_current (exec cleanup n) = ws_current n
  /\ (ws_current n = None -> exec cleanup n = n).
Proof.
  destruct n as [a r u l e m cur socks loc].
  unfold handle_owns_live, channels_created. unfold_handler. cbn.
  destruct cur as [h|]; cbn; [|done].
  destruct (socks !! h) as [[]|] eqn:Hh; cbn; rewrite ?Hh; cbn; try done.
  split_and!; [apply owns_insert_held| |done|done]. apply length_insert.
Qed.

(** A handler constructs no socket; it leaves the ref as it is or
    empties it; and when it stores a new [isAuthenticated] it touches
    neither the ref nor the sockets. *)
Lemma dispatch_channel (e : Event) (s : State) :
  let n := exec (dispatch e) s in
  (handle_owns_live s -> handle_owns_live n)
  /\ channels_created n = channels_created s
  /\ (ws_current n = ws_current s \/ ws_current n = None)
  /\ ((isAuthenticated n = isAuthenticated s /\ auth_ref n = auth_ref s)
      \/ (ws_current n = ws_current s /\ sockets n = sockets s)).
Proof.
  cbn zeta. unfold handle_owns_live, channels_created. destruct e.
  - (* ProbeSettled *)
    assert (ws_current (exec (dispatch (ProbeSettled o)) s) = ws_current s
            /\ sockets (exec (dispatch (ProbeSettled o)) s) = sockets s) as [Hc Hs].
    { unfold_handler. cbn. destruct o as [|status [|data]]; cbn; try done;
        destruct (response_ok _); cbn; try done.
      destruct (get_prop data "authenticated"); done. }
    rewrite Hc, Hs. split_and!; auto.
  - (* ClickLogin *) cbn. split_and!; auto.
  - (* ClickLogout *) cbn. split_and!; auto.
  - (* ClickGetData *) cbn. split_and!; auto.
  - (* GetDataSettled *)
    pose proof (handleGetData_settle_channel o s) as H.
    unfold channel in H. injection H as Ha Hr Hc Hs.
    change (exec (dispatch (GetDataSettled o)) s)
      with (exec (handleGetData_settle o) s).
    rewrite Hc, Hs. split_and!; auto.
  - (* WsOpen *)
    unfold_handler. cbn.
    destruct (sockets s !! sock) as [[]|] eqn:Hst; cbn;
      rewrite ?length_insert; split_and!; auto using owns_open.
  - (* WsMessage *)
    unfold dispatch, exec, read, mbind, M_bind.
    destruct (sockets s !! sock) as [[]|] eqn:Hst; cbn;
      try (split_and!; auto; fail).
    pose proof (onmessage_channel data s) as H.
    unfold channel in H. injection H as Ha Hr Hc Hs.
    fold (exec (onmessage data) s). rewrite Hc, Hs. split_and!; auto.
  - (* WsError *)
    unfold_handler. cbn.
    destruct (sockets s !! sock) as [[]|] eqn:Hst; cbn; split_and!; auto.
  - (* WsClose *)
    unfold_handler. cbn.
    destruct (sockets s !! sock) as [[]|] eqn:Hst; cbn; auto;
      rewrite ?length_insert; split_and!; eauto using owns_closed.
Qed.

(** When the dependency of the effect compares equal after a handler,
    the handler has not changed [isAuthenticated]. *)
Lemma dispatch_same_dependency (e : Event) (s : State) :
  same_dependency s (exec (dispatch e) s) = true ->
  isAuthenticated (exec (dispatch e) s) = isAuthenticated s.
Proof.
  destruct (dispatch_channel e s) as (_ & _ & _ & [[Ha _]|_]); [done|].
  unfold same_dependency.
  destruct (is_object (isAuthenticated (exec (dispatch e) s))) eqn:Hobj;
    [|intros H; symmetry; by apply same_value_eq].
  intros Href. apply Nat.eqb_eq in Href. revert Hobj Href.
  destruct e; try done.
  - unfold_handler. cbn. destruct o as [|status [|data]]; cbn; try done;
      destruct (response_ok _); cbn; try done.
    destruct (get_prop data "authenticated") as [v|]; cbn; try done.
    intros ->. lia.
  - change (exec (dispatch (GetDataSettled o)) s)
      with (exec (handleGetData_settle o) s).
    pose proof (handleGetData_settle_channel o s) as H.
    unfold channel in H. by injection H as Ha Hr Hc Hs.
  - destruct (dispatch_channel (WsOpen sock) s)
      as (_ & _ & _ & [[Ha _]|[_ Hs]]); [done|].
    revert Hs. unfold_handler. cbn. by destruct (sockets s !! sock) as [[]|].
  - unfold dispatch, exec, read, mbind, M_bind.
    destruct (sockets s !! sock) as [[]|]; try done.
    pose proof (onmessage_channel data s) as H.
    unfold channel, exec in H. by injection H as Ha Hr Hc Hs.
  - unfold_handler. cbn. by destruct (sockets s !! sock) as [[]|].
  - unfold_handler. cbn. by destruct (sockets s !! sock) as [[]|].
Qed.

(** Every step keeps the sockets the ref does not hold closed. *)
Lemma step_owns (s : State) (e : Event) :
  handle_owns_live s -> handle_owns_live (step s e).
Proof.
  intros Hown. unfold step, rerender.
  destruct (dispatch_channel e s) as (Hd & _).
  destruct (same_dependency _ _); [by apply Hd|].
  by apply effect_channel, cleanup_channel, Hd.
Qed.

Lemma run_owns (tr : list Event) (s : State) :
  handle_owns_live s -> handle_owns_live (run tr s).
Proof.
  revert s. induction tr as [|e tr IH]; intros s Hown; [done|].
  apply IH, step_owns, Hown.
Qed.

Lemma initial_owns : handle_owns_live initial.
Proof. intros i st Hi. done. Qed.

(** A step in which [isAuthenticated] turns from falsy to truthy runs
    the effect on a state whose ref and sockets the handler left
    alone. *)
Lemma rising_step (s : State) (e : Event) :
  rises s e = true ->
  step s e = exec effect (exec cleanup (exec (dispatch e) s))
  /\ truthy (isAuthenticated (exec (dispatch e) s)) = true
  /\ ws_current (exec (dispatch e) s) = ws_current s
  /\ sockets (exec (dispatch e) s) = sockets s.
Proof.
  unfold rises. intros Hr. apply andb_true_iff in Hr as [Hs Hn].
  apply negb_true_iff in Hs.
  destruct (step_fields s e) as (Ha & _). rewrite Ha in Hn.
  assert (isAuthenticated (exec (dispatch e) s) <> isAuthenticated s) as Hne
    by (intros Heq; rewrite Heq in Hn; congruence).
  split_and!; [|done|..].
  - unfold step, rerender.
    destruct (same_dependency _ _) eqn:Hdep; [|done].
    by apply dispatch_same_dependency in Hdep.
  - by destruct (dispatch_channel e s) as (_ & _ & _ & [[? _]|[? _]]).
  - by destruct (dispatch_channel e s) as (_ & _ & _ & [[? _]|[_ ?]]).
Qed.

(** With [authenticated] a boolean before and after, a step constructs
    one channel if it is a false-to-true transition that finds the ref
    empty, and none otherwise. *)
Lemma step_creates (s : State) (e : Event) (b b' : bool) :
  isAuthenticated s = JBool b ->
  isAuthenticated (step s e) = JBool b' ->
  channels_created (step s e)
    = channels_created s + (if rises s e && no_handle s then 1 else 0).
Proof.
  intros Hb Hb'. unfold rises. rewrite Hb, Hb'. cbn.
  destruct (step_fields s e) as (Ha & _). rewrite Ha in Hb'.
  destruct (dispatch_channel e s) as (_ & Hlen & _ & Hframe).
  unfold step, rerender, same_dependency. rewrite Hb, Hb'. cbn.
  destruct (Bool.eqb b b') eqn:Hbb.
  - apply Bool.eqb_prop in Hbb as <-. rewrite Hlen. destruct b; cbn; lia.
  - destruct (effect_channel (exec cleanup (exec (dispatch e) s)))
      as (_ & -> & _).
    destruct (cleanup_channel (exec (dispatch e) s)) as (_ & -> & Hcur & _).
    pose proof (cleanup_snapshot (exec (dispatch e) s)) as Hsnap.
    snapshot_fields Hsnap. rewrite Hauth, Hb', Hlen. unfold no_handle.
    rewrite Hcur.
    destruct Hframe as [[Heq _]|[-> _]]; [rewrite Hb, Hb' in Heq|].
    + injection Heq as ->. by rewrite Bool.eqb_reflx in Hbb.
    + destruct b, b'; cbn in *; try done; lia.
Qed.

Lemma boolean_run_head (tr : list Event) (s : State) :
  boolean_run tr s -> exists b, isAuthenticated s = JBool b.
Proof. destruct tr; by intros [? _]. Qed.

Lemma run_creates (tr : list Event) (s : State) :
  boolean_run tr s ->
  channels_created (run tr s) = channels_created s + rises_without_handle tr s.
Proof.
  revert s. induction tr as [|e tr IH]; intros s [[b Hb] Hrest]; cbn; [lia|].
  fold (run tr (step s e)). rewrite (IH _ Hrest).
  destruct (boolean_run_head _ _ Hrest) as [b' Hb'].
  rewrite (step_creates s e b b' Hb Hb'). lia.
Qed.

(** While [authenticated] stays [true] the effect does not run. *)
Lemma steady_step (s : State) (e : Event) :
  isAuthenticated s = JBool true ->
  isAuthenticated (step s e) = JBool true ->
  step s e = exec (dispatch e) s.
Proof.
  intros Hb Hb'. destruct (step_fields s e) as (Ha & _). rewrite Ha in Hb'.
  unfold step, rerender, same_dependency. by rewrite Hb, Hb'.
Qed.

Lemma stays_true_head (tr : list Event) (s : State) :
  stays_true tr s -> isAuthenticated s = JBool true.
Proof. destruct tr; by intros [? _]. Qed.

(** While [authenticated] stays [true], no channel is constructed and an
    empty ref stays empty. *)
Lemma steady_run (tr : list Event) (s : State) :
  stays_true tr s ->
  channels_created (run tr s) = channels_created s
  /\ (ws_current s = None -> ws_current (run tr s) = None).
Proof.
  revert s. induction tr as [|e tr IH]; intros s [Hb Hrest]; cbn; [done|].
  fold (run tr (step s e)). destruct (IH _ Hrest) as [Hlen Hcur].
  pose proof (steady_step s e Hb (stays_true_head _ _ Hrest)) as Hstep.
  destruct (dispatch_channel e s) as (_ & Hl & Hc & _).
  split; [by rewrite Hlen, Hstep|].
  intros Hnone. apply Hcur. rewrite Hstep. destruct Hc; congruence.
Qed.

(** ** One channel, opened by authentication only *)

(** C1: over every run, at most one channel is live at any time; a
    false-to-true flip of [authenticated] constructs a channel (in state
    connecting, held by the ref) only if the ref is empty, and otherwise
    constructs none; a repeated true signal changes neither the ref nor
    the sockets; and with [authenticated] a boolean throughout, the
    channels constructed are as many as the false-to-true flips that
    found the ref empty. *)
Theorem one_channel_per_transition :
  (forall tr, live_channels (run tr initial) <= 1)
  /\ (forall s e,
        rises s e = true ->
        if no_handle s
        then sockets (step s e) = (sockets s ++ [CONNECTING])%list
             /\ ws_current (step s e) = Some (length (sockets s))
        else channels_created (step s e) = channels_created s
             /\ ws_current (step s e) = ws_current s)
  /\ (forall s,
        isAuthenticated s = JBool true ->
        ws_current (step s probe_true) = ws_current s
        /\ sockets (step s probe_true) = sockets s)
  /\ (forall tr,
        boolean_run tr initial ->
        channels_created (run tr initial) = rises_without_handle tr initial).
Proof.
  split_and!.
  - intros tr. apply (owns_live_le_1 (ws_current (run tr initial))).
    apply run_owns, initial_owns.
  - intros s e Hr.
    destruct (rising_step s e Hr) as (-> & Ht & Hcur & Hsocks).
    set (n := exec (dispatch e) s) in *.
    destruct (cleanup_channel n) as (_ & Hlen & Hc & Hid).
    unfold no_handle. destruct (ws_current s) as [h|] eqn:Hws.
    + destruct (effect_channel (exec cleanup n)) as (_ & -> & -> & _).
      unfold no_handle. rewrite Hc, Hcur, andb_false_r, Hlen.
      unfold channels_created. rewrite Hsocks. split; [lia|done].
    + rewrite (Hid Hcur).
      destruct (effect_channel n) as (_ & _ & -> & Hnew).
      unfold no_handle in *. rewrite Hcur, Ht in *. cbn in *.
      rewrite (Hnew eq_refl), Hsocks. done.
  - intros s Hb.
    rewrite (steady_step s probe_true Hb); [done|].
    by destruct (step_fields s probe_true) as (-> & _).
  - intros tr Hbool. by rewrite (run_creates tr initial Hbool).
Qed.

Lemma one_channel_per_transition_witness :
  boolean_run toggling initial
  /\ channels_created (run toggling initial)
     = rises_without_handle toggling initial.
Proof.
  assert (boolean_run toggling initial) as Hbool
    by (cbn; repeat (split; [by eexists|]); done).
  split; [exact Hbool|].
  exact (proj2 (proj2 (proj2 one_channel_per_transition)) toggling Hbool).
Defined.

(** C8: while [authenticated] stays true no channel is constructed and
    an empty ref stays empty, whatever errors, closes or other events
    arrive; in particular after a channel closes the ref is empty and
    stays so.  A step that constructs a channel is one in which
    [authenticated] goes from false to true. *)
Theorem no_reopen_without_toggle :
  (forall tr s,
      stays_true tr s ->
      channels_created (run tr s) = channels_created s
      /\ (ws_current s = None -> ws_current (run tr s) = None))
  /\ (forall tr s sock st,
        sockets s !! sock = Some st ->
        st <> CLOSED ->
        stays_true (WsClose sock :: tr) s ->
        ws_current (run (WsClose sock :: tr) s) = None
        /\ channels_created (run (WsClose sock :: tr) s) = channels_created s)
  /\ (forall s e b b',
        isAuthenticated s = JBool b ->
        isAuthenticated (step s e) = JBool b' ->
        channels_created (step s e) <> channels_created s ->
        b = false /\ b' = true).
Proof.
  split_and!.
  - apply steady_run.
  - intros tr s sock st Hst Hlive Htrue.
    destruct (steady_run _ _ Htrue) as [Hlen _]. split; [|done].
    destruct Htrue as [_ Hrest]. cbn. fold (run tr (step s (WsClose sock))).
    apply (steady_run _ _ Hrest).
    by rewrite (step_close s sock st Hst Hlive).
  - intros s e b b' Hb Hb' Hnew.
    rewrite (step_creates s e b b' Hb Hb') in Hnew.
    unfold rises in Hnew. rewrite Hb, Hb' in Hnew. cbn in Hnew.
    destruct b, b'; cbn in Hnew; first [lia | done].
Qed.

Lemma no_reopen_without_toggle_witness :
  ws_current (run [WsClose 0; WsError 0; probe_true; ClickGetData] connected)
    = None
  /\ channels_created
       (run [WsClose 0; WsError 0; probe_true; ClickGetData] connected)
     = channels_created connected.
Proof.
  refine (proj1 (proj2 no_reopen_without_toggle)
            [WsError 0; probe_true; ClickGetData] connected 0 OPEN _ _ _);
    [reflexivity | discriminate | cbn; repeat split].
Defined.

(** ** The effect and its cleanup *)

(** X1: the effect is idempotent on the state: run a second time on the
    state it left, it leaves that state as it is; no second socket is
    constructed, and the [close()] it calls again on the socket that is
    already closing changes nothing. *)
Theorem effect_idempotent (s : State) :
  exec effect (exec effect s) = exec effect s.
Proof.
  destruct s as [a r u l e m cur socks loc]. unfold_handler. cbn.
  destruct (truthy a) eqn:Ha, cur as [h|]; cbn; rewrite ?Ha; cbn; try done.
  destruct (socks !! h) as [[]|] eqn:Hh; cbn; rewrite ?Ha; cbn;
    rewrite ?Hh; try done;
    by rewrite list_lookup_insert_eq by (by eapply lookup_lt_Some).
Qed.

(** The cleanup closes the socket the ref holds only when that socket is
    open; a socket in any other state and an empty ref are left exactly
    as they are. *)
Lemma cleanup_cases (s : State) :
  (forall h, ws_current s = Some h -> sockets s !! h = Some OPEN ->
      exec cleanup s =
        mkState (isAuthenticated s) (auth_ref s) (userData s) (loading s)
          (error s) (statusMessage s) (Some h) (<[h := CLOSING]> (sockets s))
          (location_href s))
  /\ (forall h st, ws_current s = Some h -> sockets s !! h = Some st ->
      st <> OPEN -> exec cleanup s = s)
  /\ (ws_current s = None -> exec cleanup s = s).
Proof.
  destruct s as [a r u l e m cur socks loc]. cbn. split_and!.
  - intros h -> Hh. unfold_handler. cbn. by rewrite Hh; cbn; rewrite Hh.
  - intros h st -> Hh Hne. unfold_handler. cbn. rewrite Hh.
    by destruct st.
  - by intros ->.
Qed.

(** X2: when the effect is run again while [isAuthenticated] is truthy
    (its dependency changed from one truthy value to another), an open
    channel is asked to close and no new one is constructed; a channel
    in any other state is left as it is. *)
Theorem rerun_while_authenticated (n : State) (h : nat) :
  truthy (isAuthenticated n) = true ->
  ws_current n = Some h ->
  (sockets n !! h = Some OPEN ->
     ws_current (exec effect (exec cleanup n)) = Some h
     /\ sockets (exec effect (exec cleanup n)) = <[h := CLOSING]> (sockets n))
  /\ (forall st, sockets n !! h = Some st -> st <> OPEN ->
     exec effect (exec cleanup n) = n).
Proof.
  intros Ha Hcur. split.
  - intros Hh.
    rewrite (proj1 (cleanup_cases n) h Hcur Hh).
    unfold_handler. cbn. by rewrite Ha.
  - intros st Hh Hne.
    rewrite (proj1 (proj2 (cleanup_cases n)) h st Hcur Hh Hne).
    destruct n as [a r u l e m cur socks loc]. cbn in *. subst cur.
    unfold_handler. cbn. by rewrite Ha.
Qed.

Lemma rerun_while_authenticated_witness :
  ws_current (exec effect (exec cleanup connected)) = Some 0
  /\ sockets (exec effect (exec cleanup connected)) = [CLOSING].
Proof.
  exact (proj1 (rerun_while_authenticated connected 0 eq_refl eq_refl) eq_refl).
Defined.

(** ** What a run keeps *)

Lemma effect_held (n : State) :
  held_ok (ws_current n) (sockets n) -> channel_ok (exec effect n).
Proof.
  destruct n as [a r u l e m cur socks loc].
  unfold channel_ok, closing_if_unauthenticated, held_ok. cbn. intros Hheld.
  unfold_handler. cbn.
  destruct (truthy a) eqn:Ha, cur as [h|]; cbn; rewrite ?Ha.
  - done.
  - split; [|done]. intros h [= <-]. rewrite length_app. cbn.
    split; [lia|]. exists CONNECTING. by rewrite lookup_app_r, Nat.sub_diag.
  - destruct (Hheld h eq_refl) as (Hlen & st & Hst & Hlive).
    pose proof (lookup_lt_Some _ _ _ Hst) as Hlt.
    rewrite Hst. destruct st; cbn; try done.
    + split; intros; simplify_eq; rewrite ?length_insert, list_lookup_insert_eq by done;
        [split; [done|by exists CLOSING]|done].
    + split; intros; simplify_eq; rewrite ?length_insert, list_lookup_insert_eq by done;
        [split; [done|by exists CLOSING]|done].
    + split; [done|]. by intros _ ? [= <-].
  - done.
Qed.

Lemma cleanup_held (n : State) :
  held_ok (ws_current n) (sockets n) ->
  held_ok (ws_current (exec cleanup n)) (sockets (exec cleanup n)).
Proof.
  intros Hheld. destruct (ws_current n) as [h|] eqn:Hcur.
  - destruct (Hheld h eq_refl) as (Hlen & st & Hst & Hlive).
    assert (st = OPEN \/ st <> OPEN) as [->|Hne]
      by (destruct st; auto; right; discriminate).
    + rewrite (proj1 (cleanup_cases n) h Hcur Hst). cbn.
      intros ? [= <-]. rewrite length_insert. split; [done|].
      exists CLOSING. split; [|done].
      apply list_lookup_insert_eq. by eapply lookup_lt_Some.
    + rewrite (proj1 (proj2 (cleanup_cases n)) h st Hcur Hst Hne).
      by rewrite Hcur.
  - rewrite (proj2 (proj2 (cleanup_cases n)) Hcur). by rewrite Hcur.
Qed.

(** The ref and the sockets after a handler: only [open] and [close]
    events touch them. *)
Lemma dispatch_sockets (e : Event) (s : State) :
  (ws_current (exec (dispatch e) s), sockets (exec (dispatch e) s)) =
    match e with
    | WsOpen i =>
        match sockets s !! i with
        | Some CONNECTING => (ws_current s, <[i := OPEN]> (sockets s))
        | _ => (ws_current s, sockets s)
        end
    | WsClose i =>
        match sockets s !! i with
        | Some CLOSED | None => (ws_current s, sockets s)
        | Some _ => (None, <[i := CLOSED]> (sockets s))
        end
    | _ => (ws_current s, sockets s)
    end.
Proof.
  destruct e.
  - unfold_handler. cbn. destruct o as [|status [|data]]; cbn; try done;
      destruct (response_ok _); cbn; try done.
    by destruct (get_prop data "authenticated").
  - done.
  - done.
  - done.
  - pose proof (handleGetData_settle_channel o s) as H.
    unfold channel in H. injection H as _ _ Hc Hs.
    change (exec (dispatch (GetDataSettled o)) s)
      with (exec (handleGetData_settle o) s). by rewrite Hc, Hs.
  - unfold_handler. cbn. by destruct (sockets s !! sock) as [[]|].
  - unfold dispatch, exec, read, mbind, M_bind.
    destruct (sockets s !! sock) as [[]|]; try done.
    pose proof (onmessage_channel data s) as H.
    unfold channel, exec in H. injection H as _ _ Hc Hs. by rewrite Hc, Hs.
  - unfold_handler. cbn. by destruct (sockets s !! sock) as [[]|].
  - unfold_handler. cbn. by destruct (sockets s !! sock) as [[]|].
Qed.

Lemma dispatch_channel_ok (e : Event) (s : State) :
  channel_ok s ->
  held_ok (ws_current (exec (dispatch e) s)) (sockets (exec (dispatch e) s))
  /\ (isAuthenticated (exec (dispatch e) s) = isAuthenticated s ->
      closing_if_unauthenticated (exec (dispatch e) s)).
Proof.
  intros [Hheld Hclosing]. unfold closing_if_unauthenticated in *.
  pose proof (dispatch_sockets e s) as Hd.
  set (n := exec (dispatch e) s) in *.
  assert ((ws_current n, sockets n) = (ws_current s, sockets s) ->
          held_ok (ws_current n) (sockets n)
          /\ (isAuthenticated n = isAuthenticated s ->
              truthy (isAuthenticated n) = false ->
              forall h, ws_current n = Some h -> sockets n !! h = Some CLOSING))
    as Hsame.
  { intros [= -> ->]. split; [done|]. intros ->. apply Hclosing. }
  destruct e; try (by apply Hsame).
  - (* WsOpen *)
    destruct (sockets s !! sock) as [[]|] eqn:Hst; try (by apply Hsame).
    injection Hd as -> ->. split.
    + intros h Hh. destruct (Hheld h Hh) as (Hlen & st & Hh' & Hlive).
      rewrite length_insert. split; [done|].
      destruct (decide (sock = h)) as [->|Hne].
      * exists OPEN. split; [|done]. apply list_lookup_insert_eq.
        by eapply lookup_lt_Some.
      * exists st. by rewrite list_lookup_insert_ne.
    + intros -> Hfalse h Hh. specialize (Hclosing Hfalse h Hh).
      destruct (decide (sock = h)) as [->|Hne]; [congruence|].
      by rewrite list_lookup_insert_ne.
  - (* WsClose *)
    destruct (sockets s !! sock) as [[]|] eqn:Hst; try (by apply Hsame);
      injection Hd as -> ->; (split; [by intros h ?|by intros _ _ h ?]).
Qed.

(** Every step keeps the ref on the newest socket, not yet closed, and
    closing when [isAuthenticated] is falsy. *)
Lemma step_channel_ok (s : State) (e : Event) :
  channel_ok s -> channel_ok (step s e).
Proof.
  intros Hok. destruct (dispatch_channel_ok e s Hok) as [Hheld Hclosing].
  unfold step, rerender.
  destruct (same_dependency s (exec (dispatch e) s)) eqn:Hdep.
  - split; [done|]. by apply Hclosing, dispatch_same_dependency.
  - by apply effect_held, cleanup_held.
Qed.

Lemma run_channel_ok (tr : list Event) (s : State) :
  channel_ok s -> channel_ok (run tr s).
Proof.
  revert s. induction tr as [|e tr IH]; intros s Hok; [done|].
  apply IH, step_channel_ok, Hok.
Qed.

Lemma initial_channel_ok : channel_ok initial.
Proof. split; [by intros h ?|by intros _ h ?]. Qed.

(** X3: in every state a run from the initial state reaches, a ref that
    holds a socket holds the one constructed last, and that socket has
    not closed: the ref never dangles. *)
Theorem ref_holds_newest_live_socket (tr : list Event) (h : nat) :
  ws_current (run tr initial) = Some h ->
  S h = channels_created (run tr initial)
  /\ exists st, sockets (run tr initial) !! h = Some st /\ st <> CLOSED.
Proof.
  intros Hh.
  destruct (run_channel_ok tr initial initial_channel_ok) as [Hheld _].
  exact (Hheld h Hh).
Qed.

Lemma ref_holds_newest_live_socket_witness :
  2 = channels_created (run toggling initial)
  /\ exists st, sockets (run toggling initial) !! 1 = Some st /\ st <> CLOSED.
Proof. exact (ref_holds_newest_live_socket toggling 1 eq_refl). Defined.

Lemma unauthenticated_socket_states
    (tr : list Event) (i : nat) (st : readyState) :
  truthy (isAuthenticated (run tr initial)) = false ->
  sockets (run tr initial) !! i = Some st ->
  st = CLOSED \/ (st = CLOSING /\ ws_current (run tr initial) = Some i).
Proof.
  intros Hfalse Hst.
  destruct (run_channel_ok tr initial initial_channel_ok) as [_ Hclosing].
  pose proof (run_owns tr initial initial_owns) as Hown.
  destruct (ws_current (run tr initial)) as [h|] eqn:Hcur.
  - destruct (decide (i = h)) as [->|Hne].
    + right. specialize (Hclosing Hfalse h Hcur). split; congruence.
    + left. apply (Hown i st Hst). rewrite Hcur. congruence.
  - left. apply (Hown i st Hst). by rewrite Hcur.
Qed.

(** X4: in every state a run from the initial state reaches, when
    [isAuthenticated] is falsy no channel is open or connecting: every
    socket is closed, except that the one the ref holds is closing. *)
Theorem unauthenticated_has_no_open_channel
    (tr : list Event) (i : nat) (st : readyState) :
  truthy (isAuthenticated (run tr initial)) = false ->
  sockets (run tr initial) !! i = Some st ->
  st = CLOSED \/ (st = CLOSING /\ ws_current (run tr initial) = Some i).
Proof. apply unauthenticated_socket_states. Qed.

Lemma unauthenticated_has_no_open_channel_witness :
  CLOSING = CLOSED
  \/ (CLOSING = CLOSING
      /\ ws_current (run [probe_true; WsOpen 0; ClickLogout] initial) = Some 0).
Proof.
  exact (unauthenticated_has_no_open_channel
           [probe_true; WsOpen 0; ClickLogout] 0 CLOSING eq_refl eq_refl).
Defined.

(** X5: while [isAuthenticated] is falsy the browser has no socket to
    deliver an [open] or a [message] to, so in every reachable
    unauthenticated state such an event changes nothing: no pushed data
    reaches the snapshot after logout. *)
Theorem no_delivery_when_unauthenticated
    (tr : list Event) (sock : nat) (data : json_text) :
  truthy (isAuthenticated (run tr initial)) = false ->
  step (run tr initial) (WsMessage sock data) = run tr initial
  /\ step (run tr initial) (WsOpen sock) = run tr initial.
Proof.
  intros Hfalse. set (s := run tr initial) in *.
  assert (sockets s !! sock <> Some OPEN /\ sockets s !! sock <> Some CONNECTING)
    as [Hno Hnc].
  { split; intros Hst;
      destruct (unauthenticated_socket_states tr sock _ Hfalse Hst)
        as [?|[? _]]; congruence. }
  split; unfold step.
  - assert (exec (dispatch (WsMessage sock data)) s = s) as ->; [|by apply rerender_unchanged].
    unfold dispatch, exec, read, mbind, M_bind.
    by destruct (sockets s !! sock) as [[]|].
  - assert (exec (dispatch (WsOpen sock)) s = s) as ->; [|by apply rerender_unchanged].
    unfold dispatch, exec, read, mbind, M_bind.
    by destruct (sockets s !! sock) as [[]|].
Qed.

Lemma no_delivery_when_unauthenticated_witness :
  step (run [probe_true; WsOpen 0; ClickLogout] initial) (WsMessage 0 msg_temp)
    = run [probe_true; WsOpen 0; ClickLogout] initial
  /\ step (run [probe_true; WsOpen 0; ClickLogout] initial) (WsOpen 0)
    = run [probe_true; WsOpen 0; ClickLogout] initial.
Proof.
  exact (no_delivery_when_unauthenticated
           [probe_true; WsOpen 0; ClickLogout] 0 msg_temp eq_refl).
Defined.

(** ** What the handlers leave alone *)

Lemma truthy_js_or (a b : jsval) :
  truthy b = true -> truthy (js_or a b) = true.
Proof. intros Hb. unfold js_or. by destruct (truthy a) eqn:Ha. Qed.

Lemma dispatch_error_ok (e : Event) (s : State) :
  error_ok s -> error_ok (exec (dispatch e) s).
Proof.
  unfold error_ok. intros Hok. destruct e.
  - unfold_handler. cbn. destruct o as [|status [|data]]; cbn; auto;
      destruct (response_ok _); cbn; auto.
    destruct (get_prop data "authenticated"); cbn; auto.
  - done.
  - done.
  - cbn. auto.
  - unfold_handler. cbn. destruct o as [|status [|v]]; cbn; auto.
    destruct (negb _); cbn; auto.
    destruct (get_prop v "detail") as [d|]; cbn; auto.
    destruct (get_prop_opt d "error") as [de|]; cbn; auto.
    right. by apply truthy_js_or.
  - unfold_handler. cbn. destruct (sockets s !! sock) as [[]|]; cbn; auto.
  - unfold_handler. cbn. destruct (sockets s !! sock) as [[]|]; cbn; auto.
    destruct data as [|v]; cbn; auto.
    destruct (get_prop v "error") as [err|]; cbn; auto.
    destruct (truthy err); cbn; auto.
    destruct (get_prop v "details") as [d|]; cbn; auto.
    destruct (ToString (js_or d err)); cbn; auto.
  - unfold_handler. cbn. destruct (sockets s !! sock) as [[]|]; cbn; auto.
  - unfold_handler. cbn. destruct (sockets s !! sock) as [[]|]; cbn; auto.
Qed.

Lemma run_error_ok (tr : list Event) (s : State) :
  error_ok s -> error_ok (run tr s).
Proof.
  revert s. induction tr as [|e tr IH]; intros s Hok; [done|].
  apply IH. unfold error_ok.
  destruct (step_fields s e) as (_ & _ & _ & -> & _).
  by apply dispatch_error_ok.
Qed.

(** X6: in every state a run from the initial state reaches, [error] is
    [null] or a truthy value: no handler ever stores an empty string,
    zero or [false] there, so the test [error && ...] of the view shows
    an error exactly when one is set. *)
Theorem error_is_null_or_truthy (tr : list Event) :
  error (run tr initial) = JNull \/ truthy (error (run tr initial)) = true.
Proof. apply (run_error_ok tr initial). by left. Qed.

(** A handler that does not call [setIsAuthenticated] leaves it, its
    reference, and so the effect, alone. *)
Lemma quiet_step (s : State) (e : Event) :
  sets_authenticated e = false ->
  step s e = exec (dispatch e) s
  /\ isAuthenticated (step s e) = isAuthenticated s.
Proof.
  intros Hq.
  assert (isAuthenticated (exec (dispatch e) s) = isAuthenticated s
          /\ auth_ref (exec (dispatch e) s) = auth_ref s) as [Ha Hr].
  { destruct e; try done.
    - pose proof (handleGetData_settle_channel o s) as H.
      unfold channel in H. by injection H as ? ? _ _.
    - unfold_handler. cbn. by destruct (sockets s !! sock) as [[]|].
    - unfold dispatch, exec, read, mbind, M_bind.
      destruct (sockets s !! sock) as [[]|]; try done.
      pose proof (onmessage_channel data s) as H.
      unfold channel, exec in H. by injection H as ? ? _ _.
    - unfold_handler. cbn. by destruct (sockets s !! sock) as [[]|].
    - unfold_handler. cbn. by destruct (sockets s !! sock) as [[]|]. }
  unfold step. rewrite (rerender_unchanged s _ Ha Hr). done.
Qed.

(** X7: only the probe and the logout click change [isAuthenticated]:
    across any run made of other events (messages, errors and closes of
    the channel, trigger requests and their answers, the login click) it
    keeps its value and no channel is constructed. *)
Theorem only_probe_and_logout_authenticate (tr : list Event) (s : State) :
  forallb (fun e => negb (sets_authenticated e)) tr = true ->
  isAuthenticated (run tr s) = isAuthenticated s
  /\ channels_created (run tr s) = channels_created s.
Proof.
  revert s. induction tr as [|e tr IH]; intros s Hq; [done|].
  cbn in Hq. apply andb_true_iff in Hq as [He Hq]. apply negb_true_iff in He.
  cbn. fold (run tr (step s e)). destruct (IH (step s e) Hq) as [-> ->].
  destruct (quiet_step s e He) as [Hstep Ha]. split; [done|].
  rewrite Hstep. by destruct (dispatch_channel e s) as (_ & ? & _).
Qed.

Lemma only_probe_and_logout_authenticate_witness :
  isAuthenticated
    (run [WsMessage 0 msg_bad_token; WsError 0; WsClose 0; ClickGetData]
       connected) = JBool true
  /\ channels_created
       (run [WsMessage 0 msg_bad_token; WsError 0; WsClose 0; ClickGetData]
          connected) = 1.
Proof.
  exact (only_probe_and_logout_authenticate
           [WsMessage 0 msg_bad_token; WsError 0; WsClose 0; ClickGetData]
           connected eq_refl).
Defined.

Lemma rerender_location (prev next : State) :
  location_href (rerender prev next) = location_href next.
Proof.
  unfold rerender. destruct (same_dependency prev next); [done|].
  transitivity (location_href (exec cleanup next)).
  - destruct (exec cleanup next) as [a r u l e m cur socks loc].
    unfold_handler. cbn. destruct (truthy a), cur as [h|]; cbn; try done.
    by destruct (socks !! h) as [[]|].
  - destruct next as [a r u l e m cur socks loc]. unfold_handler. cbn.
    destruct cur as [h|]; cbn; [|done].
    by destruct (socks !! h) as [[]|] eqn:Hh; cbn; rewrite ?Hh.
Qed.

Lemma step_location (s : State) (e : Event) :
  location_href (step s e) =
    match e with
    | ClickLogin => Some (BACKEND_URL ++ "/login")
    | ClickLogout => Some (BACKEND_URL ++ "/logout")
    | _ => location_href s
    end.
Proof.
  unfold step. rewrite rerender_location. destruct e; try done.
  - unfold_handler. cbn. destruct o as [|status [|data]]; cbn; try done;
      destruct (response_ok _); cbn; try done.
    by destruct (get_prop data "authenticated").
  - unfold_handler. cbn. destruct o as [|status [|v]]; cbn; try done.
    destruct (negb _); cbn; try done.
    destruct (get_prop v "detail") as [d|]; cbn; try done.
    by destruct (get_prop_opt d "error").
  - unfold_handler. cbn. by destruct (sockets s !! sock) as [[]|].
  - unfold_handler. cbn. destruct (sockets s !! sock) as [[]|]; cbn; try done.
    destruct data as [|v]; cbn; try done.
    destruct (get_prop v "error") as [err|]; cbn; try done.
    destruct (truthy err); cbn; try done.
    destruct (get_prop v "details") as [d|]; cbn; try done.
    by destruct (ToString (js_or d err)).
  - unfold_handler. cbn. by destruct (sockets s !! sock) as [[]|].
  - unfold_handler. cbn. by destruct (sockets s !! sock) as [[]|].
Qed.

(** X8: the page leaves only on a click: over any run the window's
    address is the one it had, or the backend's [/login] or [/logout]
    address, and a run without a login or logout click leaves it as it
    was; no response, message or socket event navigates. *)
Theorem navigation_only_on_click (tr : list Event) (s : State) :
  (location_href (run tr s) = location_href s
   \/ location_href (run tr s)
      = Some "https://aedesign-sonoff-backend.onrender.com/login"
   \/ location_href (run tr s)
      = Some "https://aedesign-sonoff-backend.onrender.com/logout")
  /\ (forallb (fun e => match e with
                        | ClickLogin | ClickLogout => false
                        | _ => true
                        end) tr = true ->
      location_href (run tr s) = location_href s).
Proof.
  revert s. induction tr as [|e tr IH]; intros s; [by split; [left|]|].
  cbn. fold (run tr (step s e)). destruct (IH (step s e)) as [Hany Hnone].
  pose proof (step_location s e) as Hstep. split.
  - destruct Hany as [->|Hany]; [|by right].
    rewrite Hstep. destruct e; auto.
  - intros Hq. apply andb_true_iff in Hq as [He Hq].
    rewrite (Hnone Hq), Hstep. by destruct e.
Qed.

Lemma step_loading (s : State) (e : Event) :
  loading (step s e) =
    match e with
    | ProbeSettled _ => false
    | _ => loading s
    end.
Proof.
  destruct (step_fields s e) as (_ & _ & -> & _). destruct e; try done.
  - unfold_handler. cbn. destruct o as [|status [|data]]; cbn; try done;
      destruct (response_ok _); cbn; try done.
    by destruct (get_prop data "authenticated").
  - unfold_handler. cbn. destruct o as [|status [|v]]; cbn; try done.
    destruct (negb _); cbn; try done.
    destruct (get_prop v "detail") as [d|]; cbn; try done.
    by destruct (get_prop_opt d "error").
  - unfold_handler. cbn. by destruct (sockets s !! sock) as [[]|].
  - unfold_handler. cbn. destruct (sockets s !! sock) as [[]|]; cbn; try done.
    destruct data as [|v]; cbn; try done.
    destruct (get_prop v "error") as [err|]; cbn; try done.
    destruct (truthy err); cbn; try done.
    destruct (get_prop v "details") as [d|]; cbn; try done.
    by destruct (ToString (js_or d err)).
  - unfold_handler. cbn. by destruct (sockets s !! sock) as [[]|].
  - unfold_handler. cbn. by destruct (sockets s !! sock) as [[]|].
Qed.

Lemma run_loading_false (tr : list Event) (s : State) :
  loading s = false -> loading (run tr s) = false.
Proof.
  revert s. induction tr as [|e tr IH]; intros s Hl; [done|].
  apply IH. rewrite step_loading. by destruct e.
Qed.

(** X9: [loading] never comes back: once the probe has settled, however
    it ended, [loading] is false in every later state of the run, so
    the checking screen is not shown again. *)
Theorem loading_stays_cleared
    (before after : list Event) (o : fetch_outcome) (s : State) :
  loading (run (before ++ ProbeSettled o :: after) s) = false.
Proof.
  unfold run. rewrite foldl_app. cbn.
  apply run_loading_false. by rewrite step_loading.
Qed.

Lemma navigation_only_on_click_witness :
  location_href (run [probe_true; WsOpen 0; ClickGetData; WsClose 0] initial)
    = None.
Proof.
  exact (proj2 (navigation_only_on_click
                  [probe_true; WsOpen 0; ClickGetData; WsClose 0] initial)
               eq_refl).
Defined.

(** ** The trigger request, whole *)

Lemma step_ClickGetData (s : State) :
  step s ClickGetData =
    mkState (isAuthenticated s) (auth_ref s) JNull (loading s) JNull
      "Requesting data from eWeLink..." (ws_current s) (sockets s)
      (location_href s).
Proof. by destruct (quiet_step s ClickGetData eq_refl) as [-> _]. Qed.

(** X10: a trigger request ends in one of two ways.  When the backend
    accepts it (a success status with a JSON body) nothing of the answer
    is used: [data] and [error] stay cleared and the status line keeps
    "Requesting data from eWeLink...".  In every other case (transport
    failure, body that is not JSON, non-success status) [data] stays
    cleared, the status line is emptied, and [error] holds a truthy
    value, so a failed request is never silent. *)
Theorem trigger_outcome (o : fetch_outcome) (s : State) :
  let s' := run [ClickGetData; GetDataSettled o] s in
  userData s' = JNull
  /\ if accepted o
     then error s' = JNull
          /\ statusMessage s' = "Requesting data from eWeLink..."
     else truthy (error s') = true /\ statusMessage s' = "".
Proof.
  cbn. rewrite step_GetDataSettled, step_ClickGetData.
  unfold_handler. cbn.
  destruct o as [|status [|v]]; cbn; try done.
  unfold accepted. destruct (response_ok _); cbn; [done|].
  destruct (get_prop v "detail") as [d|]; cbn; [|done].
  destruct (get_prop_opt d "error") as [de|]; cbn; [|done].
  split; [done|]. split; [|done]. by apply truthy_js_or.
Qed.

(** ** Data *)

Lemma step_keeps_data (s : State) (e : Event) :
  sets_data e = false -> userData (step s e) = userData s.
Proof.
  intros Hq. destruct (step_fields s e) as (_ & -> & _).
  destruct e; try done.
  - unfold_handler. cbn. destruct o as [|status [|data]]; cbn; try done;
      destruct (response_ok _); cbn; try done.
    by destruct (get_prop data "authenticated").
  - unfold_handler. cbn. destruct o as [|status [|v]]; cbn; try done.
    destruct (negb _); cbn; try done.
    destruct (get_prop v "detail") as [d|]; cbn; try done.
    by destruct (get_prop_opt d "error").
  - unfold_handler. cbn. by destruct (sockets s !! sock) as [[]|].
  - unfold_handler. cbn. by destruct (sockets s !! sock) as [[]|].
  - unfold_handler. cbn. by destruct (sockets s !! sock) as [[]|].
Qed.

(** X11: [data] is written only by an inbound message, by the
    fetch-data click and by the logout click: across any run of other
    events (probe and trigger answers, opens, errors and closes of the
    channel, the login click) the last data received stays in place. *)
Theorem data_persists (tr : list Event) (s : State) :
  forallb (fun e => negb (sets_data e)) tr = true ->
  userData (run tr s) = userData s.
Proof.
  revert s. induction tr as [|e tr IH]; intros s Hq; [done|].
  cbn in Hq. apply andb_true_iff in Hq as [He Hq]. apply negb_true_iff in He.
  cbn. fold (run tr (step s e)). rewrite (IH (step s e) Hq).
  by apply step_keeps_data.
Qed.

Lemma data_persists_witness :
  userData
    (run [WsError 0; GetDataSettled (Response 403 body_forbidden); WsClose 0;
          probe_true] showing_data)
    = JObj [("temp", JNum 21)].
Proof.
  exact (data_persists
           [WsError 0; GetDataSettled (Response 403 body_forbidden); WsClose 0;
            probe_true] showing_data eq_refl).
Defined.

(** X12: the message handler does not ask for an object: any parsed
    value from which [error] can be read and is falsy (a string, a
    number, a boolean, an array, as well as an object without a truthy
    [error]) is stored as [data], with [error] cleared and the status
    line "Data received!". *)
Theorem any_value_without_error_is_data
    (s : State) (sock : nat) (v data_error : jsval) :
  sockets s !! sock = Some OPEN ->
  get_prop v "error" = Ok data_error ->
  truthy data_error = false ->
  userData (step s (WsMessage sock (Json v))) = v
  /\ error (step s (WsMessage sock (Json v))) = JNull
  /\ statusMessage (step s (WsMessage sock (Json v))) = "Data received!".
Proof.
  intros Hopen Hget Hfalse. rewrite (step_message _ _ _ Hopen).
  unfold_handler. cbn. rewrite Hget. cbn. by rewrite Hfalse.
Qed.

Lemma any_value_without_error_is_data_witness :
  userData (step connected (WsMessage 0 (Json (JArr [JNum 1; JStr "on"]))))
    = JArr [JNum 1; JStr "on"]
  /\ error (step connected (WsMessage 0 (Json (JArr [JNum 1; JStr "on"]))))
    = JNull
  /\ statusMessage
       (step connected (WsMessage 0 (Json (JArr [JNum 1; JStr "on"]))))
    = "Data received!".
Proof.
  exact (any_value_without_error_is_data connected 0
           (JArr [JNum 1; JStr "on"]) JUndefined eq_refl eq_refl eq_refl).
Defined.

(** ** What the view shows *)

Lemma owns_live_one (h : nat) (st : readyState) (socks : list readyState) :
  owns (Some h) socks -> socks !! h = Some st -> is_live st = true ->
  live socks = 1.
Proof.
  revert h. induction socks as [|x rest IH]; intros h Hown Hh Hlive; [done|].
  destruct h as [|h]; cbn in *.
  - injection Hh as ->. rewrite Hlive, (owns_none_live rest); [done|].
    intros i st' Hi _. by apply (Hown (S i) st').
  - rewrite (Hown 0 x) by done. cbn. apply (IH h); [|done..].
    intros i st' Hi Hne. apply (Hown (S i) st'); [done|congruence].
Qed.

(** X13: in every state a run from the initial state reaches, the fetch
    button is enabled only if [isAuthenticated] is truthy and the ref
    holds an open socket, which is then the only socket not closed. *)
Theorem fetch_enabled_means_open_channel (tr : list Event) :
  fetch_disabled (run tr initial) = false ->
  truthy (isAuthenticated (run tr initial)) = true
  /\ live_channels (run tr initial) = 1
  /\ exists h, ws_current (run tr initial) = Some h
               /\ sockets (run tr initial) !! h = Some OPEN.
Proof.
  unfold fetch_disabled. intros Hen.
  destruct (ws_current (run tr initial)) as [h|] eqn:Hcur; [|done].
  destruct (sockets (run tr initial) !! h) as [[]|] eqn:Hh; try done.
  split_and!.
  - destruct (truthy (isAuthenticated (run tr initial))) eqn:Ha; [done|].
    by destruct (unauthenticated_socket_states tr h OPEN Ha Hh) as [?|[? _]].
  - apply (owns_live_one h OPEN); [|done..].
    rewrite <- Hcur. apply (run_owns tr initial initial_owns).
  - by exists h.
Qed.

Lemma fetch_enabled_means_open_channel_witness :
  truthy (isAuthenticated (run [probe_true; WsOpen 0] initial)) = true
  /\ live_channels (run [probe_true; WsOpen 0] initial) = 1
  /\ exists h, ws_current (run [probe_true; WsOpen 0] initial) = Some h
               /\ sockets (run [probe_true; WsOpen 0] initial) !! h = Some OPEN.
Proof.
  exact (fetch_enabled_means_open_channel [probe_true; WsOpen 0] eq_refl).
Defined.

(** X14: a rejected trigger request whose [detail] is an object without
    a truthy [error] property stores that object in [error], and the
    next render throws: React refuses the object as the child of the
    error box. *)
Theorem object_detail_breaks_render
    (s : State) (status : Z) (result : jsval) (detail : list (string * jsval)) :
  loading s = false ->
  response_ok (mkResponse status (Json result)) = false ->
  get_prop result "detail" = Ok (JObj detail) ->
  truthy (default JUndefined (own_prop "error" detail)) = false ->
  error (step s (GetDataSettled (Response status (Json result)))) = JObj detail
  /\ renderContent (step s (GetDataSettled (Response status (Json result))))
     = None.
Proof.
  intros Hload Hok Hget Hfalse.
  set (s' := step s (GetDataSettled (Response status (Json result)))).
  assert (error s' = JObj detail) as Herr.
  { unfold s'. rewrite step_GetDataSettled. unfold_handler. cbn.
    rewrite Hok. cbn. rewrite Hget. cbn. unfold js_or at 2. by rewrite Hfalse. }
  split; [done|]. unfold renderContent.
  unfold s' at 1. rewrite step_loading, Hload, Herr. cbn.
  by destruct (truthy (isAuthenticated s')).
Qed.

Lemma object_detail_breaks_render_witness :
  error (step connected
           (GetDataSettled
              (Response 422 (Json (JObj [("detail", JObj [("msg", JStr "bad")])])))))
    = JObj [("msg", JStr "bad")]
  /\ renderContent
       (step connected
          (GetDataSettled
             (Response 422 (Json (JObj [("detail", JObj [("msg", JStr "bad")])])))))
     = None.
Proof.
  exact (object_detail_breaks_render connected 422
           (JObj [("detail", JObj [("msg", JStr "bad")])])
           [("msg", JStr "bad")] eq_refl eq_refl eq_refl eq_refl).
Defined.

(** X15: in every state a run from the initial state reaches, once past
    the checking screen, an error that is a string is on display,
    whole, in the error box of the control panel or in the error line of
    the login prompt, whichever is shown. *)
Theorem string_error_is_shown (tr : list Event) (msg : string) :
  loading (run tr initial) = false ->
  error (run tr initial) = JStr msg ->
  match renderContent (run tr initial) with
  | Some (ControlPanel _ _ box _) => box = Boxed [msg]
  | Some (LoginPrompt box) => box = Boxed [msg]
  | _ => False
  end.
Proof.
  intros Hload Herr.
  assert (truthy (JStr msg) = true) as Ht.
  { destruct (run_error_ok tr initial (or_introl eq_refl)) as [Hn|Ht];
      rewrite Herr in *; [discriminate|done]. }
  unfold renderContent, error_slot. rewrite Hload, Herr, Ht. cbn.
  cbn in Ht. apply negb_true_iff in Ht. rewrite Ht. cbn.
  by destruct (truthy (isAuthenticated (run tr initial))).
Qed.

Lemma string_error_is_shown_witness :
  match renderContent (step connected (WsMessage 0 msg_bad_token)) with
  | Some (ControlPanel _ _ box _) => box = Boxed ["Error from server: bad token"]
  | Some (LoginPrompt box) => box = Boxed ["Error from server: bad token"]
  | _ => False
  end.
Proof.
  exact (string_error_is_shown
           [probe_true; WsOpen 0; WsMessage 0 msg_bad_token]
           "Error from server: bad token" eq_refl eq_refl).
Defined.

(** X16: after a logout click the render shows the login prompt,
    whatever was on display, with the error that was set before the
    click still in its error line. *)
Theorem logout_shows_login_prompt (s : State) :
  loading s = false ->
  renderContent (step s ClickLogout) = LoginPrompt <$> error_slot (error s).
Proof.
  intros Hload. unfold renderContent.
  rewrite step_loading, Hload.
  destruct (step_fields s ClickLogout) as (-> & _ & _ & -> & _).
  by rewrite dispatch_logout.
Qed.

Lemma logout_shows_login_prompt_witness :
  renderContent (step showing_data ClickLogout)
    = Some (LoginPrompt (Bare JNull)).
Proof. exact (logout_shows_login_prompt showing_data eq_refl). Defined.

(** X17: a probe that fails while the user is not authenticated ends on
    the login prompt with the reason in its error line: "Cannot connect
    to the backend. Is it running?" for a transport failure or a success
    answer that is not JSON, "Failed to check authentication status."
    for a non-success status. *)
Theorem failed_probe_shows_reason (s : State) (status : Z) (body : json_text) :
  truthy (isAuthenticated s) = false ->
  renderContent (step s (ProbeSettled NetworkFailure))
    = Some (LoginPrompt (Boxed ["Cannot connect to the backend. Is it running?"]))
  /\ (response_ok (mkResponse status NotJson) = true ->
      renderContent (step s (ProbeSettled (Response status NotJson)))
      = Some (LoginPrompt (Boxed ["Cannot connect to the backend. Is it running?"])))
  /\ (response_ok (mkResponse status body) = false ->
      renderContent (step s (ProbeSettled (Response status body)))
      = Some (LoginPrompt (Boxed ["Failed to check authentication status."]))).
Proof.
  intros Hfalse. split_and!; [|intros Hok..]; unfold renderContent;
    rewrite step_loading;
    match goal with
    | |- context [step s ?e] =>
        destruct (step_fields s e) as (-> & _ & _ & -> & _)
    end;
    unfold_handler; cbn; rewrite ?Hok; cbn; by rewrite Hfalse.
Qed.

Lemma failed_probe_shows_reason_witness :
  renderContent (step initial (ProbeSettled (Response 500 NotJson)))
    = Some (LoginPrompt (Boxed ["Failed to check authentication status."])).
Proof.
  exact (proj2 (proj2 (failed_probe_shows_reason initial 500 NotJson eq_refl))
               eq_refl).
Defined.

Lemma step_open (s : State) (sock : nat) :
  sockets s !! sock = Some CONNECTING ->
  step s (WsOpen sock) =
    mkState (isAuthenticated s) (auth_ref s) (userData s) (loading s) (error s)
      "Connected to server. Ready to fetch data." (ws_current s)
      (<[sock := OPEN]> (sockets s)) (location_href s).
Proof.
  intros Hst. destruct (quiet_step s (WsOpen sock) eq_refl) as [-> _].
  unfold_handler. cbn. by rewrite Hst.
Qed.

Lemma step_error (s : State) (sock : nat) (st : readyState) :
  sockets s !! sock = Some st -> st <> CLOSED ->
  step s (WsError sock) =
    mkState (isAuthenticated s) (auth_ref s) (userData s) (loading s)
      (JStr "A WebSocket error occurred. Connection may be lost.")
      (statusMessage s) (ws_current s) (sockets s) (location_href s).
Proof.
  intros Hst Hlive. destruct (quiet_step s (WsError sock) eq_refl) as [-> _].
  unfold_handler. cbn. rewrite Hst. by destruct st.
Qed.

(** X18: the fetch button follows the channel the ref holds.  When that
    socket opens, the button, disabled until then, is enabled and the
    status line reads "Connected to server. Ready to fetch data.".  An
    error event on the open socket sets the channel-error text and
    leaves the button enabled and the data and status in place: the
    error alone does not close anything.  When the socket closes the
    button is disabled. *)
Theorem fetch_button_follows_channel (s : State) (h : nat) :
  ws_current s = Some h ->
  (sockets s !! h = Some CONNECTING ->
     fetch_disabled s = true
     /\ fetch_disabled (step s (WsOpen h)) = false
     /\ statusMessage (step s (WsOpen h))
        = "Connected to server. Ready to fetch data.")
  /\ (sockets s !! h = Some OPEN ->
     fetch_disabled (step s (WsError h)) = false
     /\ error (step s (WsError h))
        = JStr "A WebSocket error occurred. Connection may be lost."
     /\ userData (step s (WsError h)) = userData s
     /\ statusMessage (step s (WsError h)) = statusMessage s
     /\ fetch_disabled (step s (WsClose h)) = true).
Proof.
  intros Hcur. split.
  - intros Hst. rewrite (step_open s h Hst). unfold fetch_disabled. cbn.
    rewrite Hcur, Hst. cbn.
    by rewrite list_lookup_insert_eq by (by eapply lookup_lt_Some).
  - intros Hst.
    rewrite (step_error s h OPEN Hst), (step_close s h OPEN Hst) by done.
    unfold fetch_disabled. cbn. by rewrite Hcur, Hst.
Qed.

Lemma fetch_button_follows_channel_witness :
  fetch_disabled (step initial probe_true) = true
  /\ fetch_disabled (step (step initial probe_true) (WsOpen 0)) = false
  /\ statusMessage (step (step initial probe_true) (WsOpen 0))
     = "Connected to server. Ready to fetch data.".
Proof.
  exact (proj1 (fetch_button_follows_channel (step initial probe_true) 0 eq_refl)
               eq_refl).
Defined.
